(** * Back-door adjustment estimator: [nonparametric/causal_reg.py]

    A shallow embedding of the class [CausalEffect] and the properties its
    specification states about it.

    Modelling decisions, all taken from the source:

    - Python floats and numpy scalars are values of a type [num] behind the
      interface [Number]; nothing is assumed of the arithmetic unless a
      theorem says so.  Two implementations are given below: the rationals
      with a missing number, and IEEE-754 binary64 ([PrimFloat]).
    - The statsmodels estimators, [scipy.integrate.nquad] and the pandas
      reductions are collaborators.  A fitted estimator is the record of the
      arguments it was constructed with; evaluating it is a method of the
      interface [Collaborators].
    - A pandas frame is an index of row labels and a list of labelled
      columns.  [DataFrame.join] is the left join on the index: a row of the
      left frame whose label the right frame does not have gets NaN in the
      right frame's columns.  A column taken out of a frame is the list of
      its values: the source never looks at the labels of a column on its
      own.
    - Python dicts are [gmap]s, sets are [gset]s.  The order in which Python
      iterates over a dict or a set, and the column order of a frame built
      from a dict, are not fixed by the source: they are methods of
      [IterationOrder], any enumeration of the keys.
    - Exceptions are values of [exn]; a method of the class is a state
      transformer over the estimator object and the log of the collaborator
      calls it made. *)

From Stdlib Require Import ZArith QArith Qabs Qminmax.
From Stdlib Require Import PrimFloat FloatOps SpecFloat FloatAxioms Uint63.
From stdpp Require Import gmap strings list fin_maps.

Local Open Scope Z_scope.
Local Open Scope string_scope.
Local Open Scope list_scope.
Local Open Scope stdpp_scope.

(** ** Exceptions and results *)

Inductive exn : Type :=
| KeyError (key : string)
| AttributeError (attribute : string)
| UnboundLocalError (name : string)
| ValueError (message : string)
| OverflowError (message : string)
| IndexError
| Exception (message : string).

Inductive res (A : Type) : Type :=
| Ok (a : A)
| Raise (e : exn).
Arguments Ok {A} a.
Arguments Raise {A} e.

#[global] Instance res_ret : MRet res := λ A a, Ok a.
#[global] Instance res_bind : MBind res :=
  λ A B f m, match m with Ok a => f a | Raise e => Raise e end.

(** [mapM] and a left fold in the monad of results, for list comprehensions
    and [for] loops whose body can raise. *)
Fixpoint for_each {A B} (f : A → res B) (l : list A) : res (list B) :=
  match l with
  | [] => Ok []
  | a :: l => b ← f a; bs ← for_each f l; Ok (b :: bs)
  end.

Fixpoint for_fold {A B} (f : B → A → res B) (b : B) (l : list A) : res B :=
  match l with
  | [] => Ok b
  | a :: l => b' ← f b a; for_fold f b' l
  end.

(** ** Numbers *)

Class Number (num : Type) : Type := {
  zero : num;                       (* 0. *)
  ten : num;                        (* 10. *)
  add : num → num → num;
  sub : num → num → num;
  mul : num → num → num;
  neg : num → num;                  (* unary minus *)
  log : num → num;                  (* np.log *)
  NaN : num;                        (* what pandas fills a missing cell with *)
  isnan : num → bool;               (* math.isnan *)
  of_int : Z → num;                 (* a Python int stored in a frame *)
  to_int : num → option Z;          (* int(v); None when int raises *)
  series_min : list num → num;      (* Series.min() *)
  series_max : list num → num;      (* Series.max() *)
}.

(** ** Python containers *)

(** [d[k]] on a dict. *)
Definition dict_get {V} (d : gmap string V) (k : string) : res V :=
  match d !! k with
  | Some v => Ok v
  | None => Raise (KeyError k)
  end.

(** [{k : v for k, v in pairs}]: a later pair overrides an earlier one. *)
Definition dict_of_pairs {V} (pairs : list (string * V)) : gmap string V :=
  foldl (λ d kv, <[kv.1 := kv.2]> d) ∅ pairs.

(** [d.values()] up to order. *)
Definition dict_values {V} (d : gmap string V) : list V := (map_to_list d).*2.

(** [xrange(start, stop)]. *)
Definition xrange (start stop : Z) : list Z := seqZ start (stop - start).

(** [itertools.product] of the ranges: the first range varies slowest; the product
    of no range is the one empty tuple. *)
Fixpoint product {A} (ranges : list (list A)) : list (list A) :=
  match ranges with
  | [] => [[]]
  | r :: ranges => v ← r; t ← product ranges; [v :: t]
  end.

(** [''.join(tags)]. *)
Definition str_join (tags : list string) : string := foldr String.append "" tags.

Class IterationOrder : Type := {
  set_iter : gset string → list string;                       (* list(s) *)
  dict_iter : ∀ V, gmap string V → list (string * V);         (* d.items() *)
  dict_columns : ∀ V, gmap string V → list (string * V);      (* DataFrame(d) *)
  set_iter_perm : ∀ s, set_iter s ≡ₚ elements s;
  dict_iter_perm : ∀ V (d : gmap string V), dict_iter V d ≡ₚ map_to_list d;
  dict_columns_perm : ∀ V (d : gmap string V), dict_columns V d ≡ₚ map_to_list d;
}.
Arguments dict_iter {_ V} d.
Arguments dict_columns {_ V} d.

(** ** Frames *)

(** A row label.  A frame built from a dict of lists is labelled
    [0, 1, ...]; the frame of a caller carries the labels the caller gave
    it. *)
Inductive row_label : Type :=
| IntLabel (i : Z)
| StrLabel (s : string).

#[global] Instance row_label_eq_dec : EqDecision row_label.
Proof. solve_decision. Defined.

(** [RangeIndex(n)] *)
Definition range_index (n : nat) : list row_label :=
  (λ i : nat, IntLabel (Z.of_nat i)) <$> seq 0 n.

Section Frames.
Context {num : Type} `{!Number num}.

Definition Series : Type := list num.

Record DataFrame : Type := Frame {
  index : list row_label;            (* X.index *)
  series : list (string * Series);   (* the columns, in order *)
}.

(** [pd.DataFrame(columns)] for columns of one length: the default index. *)
Definition new_frame (cols : list (string * Series)) : DataFrame :=
  Frame (range_index (match cols with [] => 0 | c :: _ => length c.2 end)) cols.

(** [X.columns] *)
Definition columns (X : DataFrame) : list string := (series X).*1.

Fixpoint find_series (cols : list (string * Series)) (k : string) : option Series :=
  match cols with
  | [] => None
  | (k', c) :: cols => if decide (k' = k) then Some c else find_series cols k
  end.

Definition find_column (X : DataFrame) (k : string) : option Series :=
  find_series (series X) k.

(** [X[k]] for a label [k]. *)
Definition getitem (X : DataFrame) (k : string) : res Series :=
  match find_column X k with
  | Some c => Ok c
  | None => Raise (KeyError k)
  end.

(** [X[ks]] for a list of labels [ks]: the rows keep their labels. *)
Definition getitems (X : DataFrame) (ks : list string) : res DataFrame :=
  cols ← for_each (λ k, c ← getitem X k; Ok (k, c)) ks;
  Ok (Frame (index X) cols).

(** The columns of two frames over the same rows, side by side. *)
Definition hcat (l r : DataFrame) : DataFrame :=
  Frame (index l) (series l ++ series r).

(** The positions, from [j] on, of the rows labelled [a]. *)
Fixpoint matches (a : row_label) (labels : list row_label) (j : nat) : list nat :=
  match labels with
  | [] => []
  | b :: labels =>
      if decide (b = a) then j :: matches a labels (S j) else matches a labels (S j)
  end.

(** The rows of a left join on the index, from the [i]-th row of the left
    frame on: the label, the position of the row in the left frame and the
    position of a matching row in the right frame.  A row without a match
    is kept, a row with several matches is repeated. *)
Fixpoint join_rows (l r : list row_label) (i : nat)
  : list (row_label * nat * option nat) :=
  match l with
  | [] => []
  | a :: l =>
      match matches a r 0 with
      | [] => [(a, i, None)]
      | js => (λ j, (a, i, Some j)) <$> js
      end ++ join_rows l r (S i)
  end.

(** [l.join(r)]: raises when a label of a column occurs on both sides;
    otherwise the left join on the index, NaN where [r] has no row. *)
Definition join (l r : DataFrame) : res DataFrame :=
  if bool_decide (Exists (λ k, k ∈ columns l) (columns r))
  then Raise (ValueError "columns overlap but no suffix specified")
  else
    let rows := join_rows (index l) (index r) 0 in
    Ok (Frame
          (rows.*1.*1)
          (((λ c : string * Series,
               (c.1, (λ row : row_label * nat * option nat,
                        default NaN (c.2 !! row.1.2)) <$> rows)) <$> series l)
           ++ ((λ c : string * Series,
                  (c.1, (λ row : row_label * nat * option nat,
                           default NaN (row.2 ≫= (c.2 !!.))) <$> rows)) <$> series r))).

Definition row (X : DataFrame) (i : nat) : option (list num) :=
  mapM (λ c : string * Series, c.2 !! i) (series X).

(** [X.values], the rows of the frame. *)
Definition values (X : DataFrame) : list (list num) :=
  omap (row X) (seq 0 (length (index X))).

(** [X.values[0]] *)
Definition values0 (X : DataFrame) : res (list num) :=
  match values X with
  | r :: _ => Ok r
  | [] => Raise IndexError
  end.

(** [pd.DataFrame({k : [v] for k, v in zip(ks, vs)})]: one row labelled 0;
    the frame of the empty dict has no row. *)
Definition one_row_frame `{!IterationOrder} (ks : list string) (vs : list num)
  : DataFrame :=
  Frame (match zip ks vs with [] => [] | _ => [IntLabel 0] end)
        (dict_columns (dict_of_pairs (zip ks ((λ v, [v]) <$> vs)))).

(** What a collaborator is called with: a frame, a column, a 2-d array of
    rows or a single row. *)
Inductive array_like : Type :=
| AFrame (X : DataFrame)
| ASeries (s : Series)
| AValues (rows : list (list num))
| ARow (r : list num).
End Frames.
Arguments Series num : clear implicits.
Arguments DataFrame num : clear implicits.
Arguments array_like num : clear implicits.

(** ** Collaborators *)

(** A statsmodels estimator is the record of the arguments of its
    constructor.  The bandwidth argument is the name of a selection rule. *)
Record KDEMultivariate (num : Type) : Type := {
  kde_data : array_like num;
  kde_var_type : string;
  kde_bw : string;
}.
Arguments kde_data {num}.
Arguments kde_var_type {num}.
Arguments kde_bw {num}.

Record KDEMultivariateConditional (num : Type) : Type := {
  ckde_endog : array_like num;
  ckde_exog : array_like num;
  ckde_dep_type : string;
  ckde_indep_type : string;
  ckde_bw : string;
}.
Arguments ckde_endog {num}.
Arguments ckde_exog {num}.
Arguments ckde_dep_type {num}.
Arguments ckde_indep_type {num}.
Arguments ckde_bw {num}.

Record KernelReg (num : Type) : Type := {
  reg_endog : array_like num;
  reg_exog : array_like num;
  reg_var_type : string;
  reg_bw : string;
}.
Arguments reg_endog {num}.
Arguments reg_exog {num}.
Arguments reg_var_type {num}.
Arguments reg_bw {num}.

Class Collaborators (num : Type) : Type := {
  (* KDEMultivariate.pdf(data_predict) *)
  kde_pdf : KDEMultivariate num → array_like num → num;
  (* KDEMultivariateConditional.pdf(exog_predict, endog_predict) *)
  ckde_pdf : KDEMultivariateConditional num → array_like num → array_like num → num;
  (* KDEMultivariateConditional.bw, the fitted bandwidths, endog first *)
  ckde_fitted_bw : KDEMultivariateConditional num → list num;
  (* KernelReg.fit(data_predict), the pair (mean, mfx) *)
  reg_fit : KernelReg num → array_like num → num * num;
  (* nquad(func, ranges)[0:2]; an exception of the integrand propagates *)
  nquad : (list num → res num) → list (num * num) → res (num * num);
}.

(** ** The estimator object *)

Record CausalEffect (num : Type) : Type := {
  causes : list string;
  effects : list string;
  admissable_set : list string;
  conditional_density_vars : list string;
  variable_types : gmap string string;
  density : option (KDEMultivariate num);         (* set when Z is not empty *)
  conditional_density : KDEMultivariateConditional num;
  conditional_expectation : option (KernelReg num);    (* set on request *)
  support : gmap string (num * num);
  discrete_variables : list string;
  discrete_Z : list string;
  continuous_variables : list string;
  continuous_Z : list string;
  (* attributes that only [biased_mutual_information] assigns *)
  x1 : option string;
  x2 : option string;
  mi_density : option (KDEMultivariate num);
  mi_conditional_density : option (KDEMultivariateConditional num);
  x1_integration_density : option (KDEMultivariate num);
  integration_density : option (KDEMultivariate num);
  cond_integration_density : option (KDEMultivariateConditional num);
}.
Arguments causes {num}.
Arguments effects {num}.
Arguments admissable_set {num}.
Arguments conditional_density_vars {num}.
Arguments variable_types {num}.
Arguments density {num}.
Arguments conditional_density {num}.
Arguments conditional_expectation {num}.
Arguments support {num}.
Arguments discrete_variables {num}.
Arguments discrete_Z {num}.
Arguments continuous_variables {num}.
Arguments continuous_Z {num}.
Arguments x1 {num}.
Arguments x2 {num}.
Arguments mi_density {num}.
Arguments mi_conditional_density {num}.
Arguments x1_integration_density {num}.
Arguments integration_density {num}.
Arguments cond_integration_density {num}.

(** ** Construction *)

Section Construction.
Context {num : Type} `{!Number num} `{!Collaborators num} `{!IterationOrder}.

(** The rule of both constructor and mutual information: ['cv_ml'] when
    ['c'] is not among the tags looked at, ['normal_reference'] otherwise. *)
Definition bandwidth_rule (tags : list string) : string :=
  if bool_decide ("c" ∈ tags) then "normal_reference" else "cv_ml".

(** A local variable that is bound in one branch of an [if] only. *)
Definition local {A} (name : string) (v : option A) : res A :=
  match v with
  | Some a => Ok a
  | None => Raise (UnboundLocalError name)
  end.

(** [CausalEffect.__get_support], over the attributes it reads from the
    object under construction. *)
Definition __get_support (self_effects self_conditional_density_vars : list string)
    (self_variable_types : gmap string string)
    (self_conditional_density : KDEMultivariateConditional num)
    (X : DataFrame num) : res (gmap string (num * num)) :=
  data_support ← for_each
    (λ variable, c ← getitem X variable;
                 Ok (variable, (series_min c, series_max c)))
    (columns X);
  let data_support := dict_of_pairs data_support in
  let variable_bandwidths :=
    dict_of_pairs (zip (self_effects ++ self_conditional_density_vars)
                       (ckde_fitted_bw self_conditional_density)) in
  for_fold
    (λ support variable,
       tag ← dict_get self_variable_types variable;
       if bool_decide (tag = "c") then
         lo ← dict_get data_support variable;
         bw_lo ← dict_get variable_bandwidths variable;
         let lower_support := sub lo.1 (mul ten bw_lo) in
         hi ← dict_get data_support variable;
         bw_hi ← dict_get variable_bandwidths variable;
         let upper_support := add hi.2 (mul ten bw_hi) in
         Ok (<[variable := (lower_support, upper_support)]> support)
       else
         s ← dict_get data_support variable;
         Ok (<[variable := s]> support))
    ∅ (self_effects ++ self_conditional_density_vars).

(** [CausalEffect.__init__(X, causes, effects, admissable_set,
    variable_types, expectation, density)].  [variable_types] is [None]
    when the caller leaves it out; the flag [density] is not read. *)
Definition __init__ (X : DataFrame num) (causes effects admissable_set : list string)
    (variable_types : option (gmap string string))
    (expectation density : bool) : res (CausalEffect num) :=
  let conditional_density_vars := causes ++ admissable_set in
  (* if variable_types: the three tag lists are bound in this branch only *)
  tags ← match variable_types with
    | Some types =>
        if bool_decide (types ≠ ∅) then
          dep_type ← for_each (dict_get types) effects;
          indep_type ← for_each (dict_get types) conditional_density_vars;
          density_types ← for_each (dict_get types) admissable_set;
          Ok (Some (dep_type, indep_type, density_types))
        else Ok None
    | None => Ok None
    end;
  let dep_type := fst ∘ fst <$> tags in
  let indep_type := snd ∘ fst <$> tags in
  let density_types := snd <$> tags in
  (* 'c' not in variable_types.values() *)
  types ← match variable_types with
    | Some types => Ok types
    | None => Raise (AttributeError "values")
    end;
  let bw := bandwidth_rule (dict_values types) in
  self_density ←
    (if bool_decide (admissable_set ≠ []) then
       data ← getitems X admissable_set;
       density_types ← local "density_types" density_types;
       Ok (Some {| kde_data := AFrame data;
                   kde_var_type := str_join density_types;
                   kde_bw := bw |})
     else Ok None);
  endog ← getitems X effects;
  exog ← getitems X conditional_density_vars;
  dep_type ← local "dep_type" dep_type;
  indep_type ← local "indep_type" indep_type;
  let self_conditional_density :=
    {| ckde_endog := AFrame endog; ckde_exog := AFrame exog;
       ckde_dep_type := str_join dep_type;
       ckde_indep_type := str_join indep_type;
       ckde_bw := bw |} in
  self_conditional_expectation ←
    (if expectation then
       endog ← getitems X effects;
       exog ← getitems X conditional_density_vars;
       Ok (Some {| reg_endog := AValues (values endog);
                   reg_exog := AValues (values exog);
                   reg_var_type := str_join indep_type;
                   reg_bw := "cv_ls" |})
     else Ok None);
  self_support ← __get_support effects conditional_density_vars types
                    self_conditional_density X;
  let self_discrete_variables :=
    (filter (λ item : string * string, item.2 ∈ ["o"; "u"]) (dict_iter types)).*1 in
  let self_discrete_Z :=
    set_iter (list_to_set self_discrete_variables ∩ list_to_set admissable_set) in
  let self_continuous_variables :=
    (filter (λ item : string * string, item.2 = "c") (dict_iter types)).*1 in
  let self_continuous_Z :=
    set_iter (list_to_set self_continuous_variables ∩ list_to_set admissable_set) in
  Ok {| causes := causes; effects := effects;
        admissable_set := admissable_set;
        conditional_density_vars := conditional_density_vars;
        variable_types := types;
        density := self_density;
        conditional_density := self_conditional_density;
        conditional_expectation := self_conditional_expectation;
        support := self_support;
        discrete_variables := self_discrete_variables;
        discrete_Z := self_discrete_Z;
        continuous_variables := self_continuous_variables;
        continuous_Z := self_continuous_Z;
        x1 := None; x2 := None; mi_density := None;
        mi_conditional_density := None; x1_integration_density := None;
        integration_density := None; cond_integration_density := None |}.
End Construction.

(** ** Attribute assignment

    [self.name = v] for the attributes that are assigned after construction. *)

Definition set_x1 {num} (v : string) (self : CausalEffect num)
  : CausalEffect num :=
  {| causes := causes self; effects := effects self;
     admissable_set := admissable_set self;
     conditional_density_vars := conditional_density_vars self;
     variable_types := variable_types self; density := density self;
     conditional_density := conditional_density self;
     conditional_expectation := conditional_expectation self;
     support := support self; discrete_variables := discrete_variables self;
     discrete_Z := discrete_Z self;
     continuous_variables := continuous_variables self;
     continuous_Z := continuous_Z self; x1 := Some v; x2 := x2 self;
     mi_density := mi_density self;
     mi_conditional_density := mi_conditional_density self;
     x1_integration_density := x1_integration_density self;
     integration_density := integration_density self;
     cond_integration_density := cond_integration_density self |}.

Definition set_x2 {num} (v : string) (self : CausalEffect num)
  : CausalEffect num :=
  {| causes := causes self; effects := effects self;
     admissable_set := admissable_set self;
     conditional_density_vars := conditional_density_vars self;
     variable_types := variable_types self; density := density self;
     conditional_density := conditional_density self;
     conditional_expectation := conditional_expectation self;
     support := support self; discrete_variables := discrete_variables self;
     discrete_Z := discrete_Z self;
     continuous_variables := continuous_variables self;
     continuous_Z := continuous_Z self; x1 := x1 self; x2 := Some v;
     mi_density := mi_density self;
     mi_conditional_density := mi_conditional_density self;
     x1_integration_density := x1_integration_density self;
     integration_density := integration_density self;
     cond_integration_density := cond_integration_density self |}.

Definition set_mi_density {num} (v : KDEMultivariate num) (self : CausalEffect num)
  : CausalEffect num :=
  {| causes := causes self; effects := effects self;
     admissable_set := admissable_set self;
     conditional_density_vars := conditional_density_vars self;
     variable_types := variable_types self; density := density self;
     conditional_density := conditional_density self;
     conditional_expectation := conditional_expectation self;
     support := support self; discrete_variables := discrete_variables self;
     discrete_Z := discrete_Z self;
     continuous_variables := continuous_variables self;
     continuous_Z := continuous_Z self; x1 := x1 self; x2 := x2 self;
     mi_density := Some v; mi_conditional_density := mi_conditional_density self;
     x1_integration_density := x1_integration_density self;
     integration_density := integration_density self;
     cond_integration_density := cond_integration_density self |}.

Definition set_mi_conditional_density {num} (v : KDEMultivariateConditional num) (self : CausalEffect num)
  : CausalEffect num :=
  {| causes := causes self; effects := effects self;
     admissable_set := admissable_set self;
     conditional_density_vars := conditional_density_vars self;
     variable_types := variable_types self; density := density self;
     conditional_density := conditional_density self;
     conditional_expectation := conditional_expectation self;
     support := support self; discrete_variables := discrete_variables self;
     discrete_Z := discrete_Z self;
     continuous_variables := continuous_variables self;
     continuous_Z := continuous_Z self; x1 := x1 self; x2 := x2 self;
     mi_density := mi_density self; mi_conditional_density := Some v;
     x1_integration_density := x1_integration_density self;
     integration_density := integration_density self;
     cond_integration_density := cond_integration_density self |}.

Definition set_x1_integration_density {num} (v : KDEMultivariate num) (self : CausalEffect num)
  : CausalEffect num :=
  {| causes := causes self; effects := effects self;
     admissable_set := admissable_set self;
     conditional_density_vars := conditional_density_vars self;
     variable_types := variable_types self; density := density self;
     conditional_density := conditional_density self;
     conditional_expectation := conditional_expectation self;
     support := support self; discrete_variables := discrete_variables self;
     discrete_Z := discrete_Z self;
     continuous_variables := continuous_variables self;
     continuous_Z := continuous_Z self; x1 := x1 self; x2 := x2 self;
     mi_density := mi_density self;
     mi_conditional_density := mi_conditional_density self;
     x1_integration_density := Some v;
     integration_density := integration_density self;
     cond_integration_density := cond_integration_density self |}.

Definition set_integration_density {num} (v : KDEMultivariate num) (self : CausalEffect num)
  : CausalEffect num :=
  {| causes := causes self; effects := effects self;
     admissable_set := admissable_set self;
     conditional_density_vars := conditional_density_vars self;
     variable_types := variable_types self; density := density self;
     conditional_density := conditional_density self;
     conditional_expectation := conditional_expectation self;
     support := support self; discrete_variables := discrete_variables self;
     discrete_Z := discrete_Z self;
     continuous_variables := continuous_variables self;
     continuous_Z := continuous_Z self; x1 := x1 self; x2 := x2 self;
     mi_density := mi_density self;
     mi_conditional_density := mi_conditional_density self;
     x1_integration_density := x1_integration_density self;
     integration_density := Some v;
     cond_integration_density := cond_integration_density self |}.

Definition set_cond_integration_density {num} (v : KDEMultivariateConditional num) (self : CausalEffect num)
  : CausalEffect num :=
  {| causes := causes self; effects := effects self;
     admissable_set := admissable_set self;
     conditional_density_vars := conditional_density_vars self;
     variable_types := variable_types self; density := density self;
     conditional_density := conditional_density self;
     conditional_expectation := conditional_expectation self;
     support := support self; discrete_variables := discrete_variables self;
     discrete_Z := discrete_Z self;
     continuous_variables := continuous_variables self;
     continuous_Z := continuous_Z self; x1 := x1 self; x2 := x2 self;
     mi_density := mi_density self;
     mi_conditional_density := mi_conditional_density self;
     x1_integration_density := x1_integration_density self;
     integration_density := integration_density self;
     cond_integration_density := Some v |}.

(** ** Methods *)

(** The three bound methods that are handed to [nquad]. *)
Inductive integrand : Type :=
| IntegrationFunction
| ExpectationIntegrationFunction
| EntropyIntegrationFunction.

(** A call a method makes to a collaborator. *)
Inductive call (num : Type) : Type :=
| CallKdePdf (model : KDEMultivariate num) (data_predict : array_like num)
| CallCkdePdf (model : KDEMultivariateConditional num)
              (exog_predict endog_predict : array_like num)
| CallRegFit (model : KernelReg num) (data_predict : array_like num)
| CallNquad (func : integrand) (ranges : list (num * num)) (args : list num).
Arguments CallKdePdf {num}.
Arguments CallCkdePdf {num}.
Arguments CallRegFit {num}.
Arguments CallNquad {num}.


(** The world a method runs in: the object [self] and the calls made so
    far, oldest first. *)
Definition world (num : Type) : Type := CausalEffect num * list (call num).

(** A method: it returns or raises, and leaves a world behind either way. *)
Definition method (num A : Type) : Type := world num → res A * world num.

#[global] Instance method_ret {num} : MRet (method num) := λ A a w, (Ok a, w).
#[global] Instance method_bind {num} : MBind (method num) :=
  λ A B f m w, match m w with
               | (Ok a, w') => f a w'
               | (Raise e, w') => (Raise e, w')
               end.

Section Methods.
Context {num : Type} `{!Number num} `{!Collaborators num} `{!IterationOrder}.

Definition get_self : method num (CausalEffect num) := λ w, (Ok w.1, w).

Definition set_self (f : CausalEffect num → CausalEffect num) : method num () :=
  λ w, (Ok (), (f w.1, w.2)).

Definition lift {A} (r : res A) : method num A := λ w, (r, w).

Definition logged {A} (c : call num) (r : res A) : method num A :=
  λ w, (r, (w.1, w.2 ++ [c])).

(** [self.name] for an attribute that may never have been assigned. *)
Definition attr {A} (name : string) (v : option A) : res A :=
  match v with
  | Some a => Ok a
  | None => Raise (AttributeError name)
  end.

(** [int(v)]: a number that has no integer part is NaN or an infinity. *)
Definition int (v : num) : res Z :=
  match to_int v with
  | Some z => Ok z
  | None =>
      if isnan v then Raise (ValueError "cannot convert float NaN to integer")
      else Raise (OverflowError "cannot convert float infinity to integer")
  end.

(** A [for] loop that updates an accumulator. *)
Fixpoint for_loop {A B} (body : B → A → method num B) (b : B) (l : list A)
  : method num B :=
  match l with
  | [] => mret b
  | a :: l => b' ← body b a; for_loop body b' l
  end.

(** [nquad(func, ranges, args=args)[0]]: the integrand is called on the
    quadrature point followed by [args]. *)
Definition call_nquad (name : integrand) (func : list num → res num)
    (ranges : list (num * num)) (args : list num) : method num num :=
  logged (CallNquad name ranges args)
         (r ← nquad (λ point, func (point ++ args)) ranges; Ok r.1).

Definition call_kde_pdf (model : KDEMultivariate num) (data_predict : array_like num)
  : method num num :=
  logged (CallKdePdf model data_predict) (Ok (kde_pdf model data_predict)).

Definition call_ckde_pdf (model : KDEMultivariateConditional num)
    (exog_predict endog_predict : array_like num) : method num num :=
  logged (CallCkdePdf model exog_predict endog_predict)
         (Ok (ckde_pdf model exog_predict endog_predict)).

(** [model.fit(data_predict=...)[0]] *)
Definition call_reg_fit (model : KernelReg num) (data_predict : array_like num)
  : method num num :=
  logged (CallRegFit model data_predict) (Ok (reg_fit model data_predict).1).

(** *** Integrands

    Each reads [self] and returns a number or raises; [nquad] calls it. *)

Definition integration_function (self : CausalEffect num) (args : list num)
  : res num :=
  let data := one_row_frame (continuous_Z self ++ discrete_Z self
                             ++ causes self ++ effects self) args in
  exog ← getitems data (conditional_density_vars self);
  exog ← values0 exog;
  endog ← getitems data (effects self);
  endog ← values0 endog;
  let conditional := ckde_pdf (conditional_density self) (ARow exog) (ARow endog) in
  self_density ← attr "density" (density self);
  z ← getitems data (admissable_set self);
  let density := kde_pdf self_density (AFrame z) in
  Ok (mul conditional density).

Definition expectation_integration_function (self : CausalEffect num)
    (args : list num) : res num :=
  let data := one_row_frame (continuous_Z self ++ discrete_Z self
                             ++ causes self) args in
  self_conditional_expectation ←
    attr "conditional_expectation" (conditional_expectation self);
  exog ← getitems data (conditional_density_vars self);
  let conditional := (reg_fit self_conditional_expectation (AValues (values exog))).1 in
  self_density ← attr "density" (density self);
  z ← getitems data (admissable_set self);
  let density := kde_pdf self_density (AFrame z) in
  Ok (mul conditional density).

Definition entropy_integration_function (self : CausalEffect num)
    (args : list num) : res num :=
  var ← match args with
    | [_; _] => a ← attr "x1" (x1 self); b ← attr "x2" (x2 self); Ok [a; b]
    | [_] => b ← attr "x2" (x2 self); Ok [b]
    | _ => Raise (Exception "Too few args in entropy integration")
    end;
  let data := one_row_frame var args in
  if bool_decide (length args = 2%nat) then
    model ← attr "cond_integration_density" (cond_integration_density self);
    self_x1 ← attr "x1" (x1 self);
    exog ← getitem data self_x1;
    self_x2 ← attr "x2" (x2 self);
    endog ← getitem data self_x2;
    let p := ckde_pdf model (ASeries exog) (ASeries endog) in
    marginal ← attr "x1_integration_density" (x1_integration_density self);
    at_x1 ← getitem data self_x1;
    Ok (mul (mul (neg (kde_pdf marginal (ASeries at_x1))) p) (log p))
  else
    model ← attr "integration_density" (integration_density self);
    self_x2 ← attr "x2" (x2 self);
    at_x2 ← getitem data self_x2;
    let p := kde_pdf model (ASeries at_x2) in
    Ok (mul (neg p) (log p)).

(** *** Queries *)

(** The comprehension of lines 174 and 214: one [xrange] per discrete
    confounder. *)
Definition discrete_ranges (self : CausalEffect num) : res (list (list Z)) :=
  for_each
    (λ variable,
       s ← dict_get (support self) variable;
       lo ← int s.1;
       hi ← int s.2;
       Ok (xrange lo (hi + 1)))
    (discrete_Z self).

Definition continuous_ranges (self : CausalEffect num) : res (list (num * num)) :=
  for_each (dict_get (support self)) (continuous_Z self).

(** [CausalEffect.pdf(x)] *)
Definition pdf (x : DataFrame num) : method num num :=
  self ← get_self;
  let causal_effect := zero in
  x ← lift (getitems x (causes self ++ effects self));
  if bool_decide (discrete_Z self ≠ []) then
    discrete_variable_ranges ← lift (discrete_ranges self);
    for_loop
      (λ causal_effect z_vals,
         let z_discrete := one_row_frame (discrete_Z self) (of_int <$> z_vals) in
         if bool_decide (continuous_Z self ≠ []) then
           continuous_Z_ranges ← lift (continuous_ranges self);
           joined ← lift (join z_discrete x);
           args ← lift (values0 joined);
           integral ← call_nquad IntegrationFunction (integration_function self)
                        continuous_Z_ranges args;
           mret (add causal_effect integral)
         else
           z_discrete ← lift (getitems z_discrete (admissable_set self));
           joined ← lift (join x z_discrete);
           exog_predictors ← lift (getitems joined (conditional_density_vars self));
           endog ← lift (getitems x (effects self));
           conditional ← call_ckde_pdf (conditional_density self)
                           (AFrame exog_predictors) (AFrame endog);
           self_density ← lift (attr "density" (density self));
           density ← call_kde_pdf self_density (AFrame z_discrete);
           let dc := mul conditional density in
           mret (add causal_effect dc))
      causal_effect (product discrete_variable_ranges)
  else if bool_decide (continuous_Z self ≠ []) then
    continuous_Z_ranges ← lift (continuous_ranges self);
    args ← lift (values0 x);
    call_nquad IntegrationFunction (integration_function self)
               continuous_Z_ranges args
  else
    exog ← lift (getitems x (causes self));
    endog ← lift (getitems x (effects self));
    call_ckde_pdf (conditional_density self) (AFrame exog) (AFrame endog).

(** [CausalEffect.expected_value(x)] *)
Definition expected_value (x : DataFrame num) : method num num :=
  self ← get_self;
  let causal_effect := zero in
  x ← lift (getitems x (causes self));
  if bool_decide (discrete_Z self ≠ []) then
    discrete_variable_ranges ← lift (discrete_ranges self);
    for_loop
      (λ causal_effect z_vals,
         let z_discrete := one_row_frame (discrete_Z self) (of_int <$> z_vals) in
         if bool_decide (continuous_Z self ≠ []) then
           continuous_Z_ranges ← lift (continuous_ranges self);
           joined ← lift (join z_discrete x);
           args ← lift (values0 joined);
           integral ← call_nquad ExpectationIntegrationFunction
                        (expectation_integration_function self)
                        continuous_Z_ranges args;
           mret (add causal_effect integral)
         else
           z_discrete ← lift (getitems z_discrete (admissable_set self));
           joined ← lift (join x z_discrete);
           exog_predictors ← lift (getitems joined (conditional_density_vars self));
           model ← lift (attr "conditional_expectation" (conditional_expectation self));
           conditional ← call_reg_fit model (AValues (values exog_predictors));
           self_density ← lift (attr "density" (density self));
           density ← call_kde_pdf self_density (AValues (values z_discrete));
           mret (add causal_effect (mul conditional density)))
      causal_effect (product discrete_variable_ranges)
  else if bool_decide (continuous_Z self ≠ []) then
    continuous_Z_ranges ← lift (continuous_ranges self);
    args ← lift (values0 x);
    call_nquad ExpectationIntegrationFunction
               (expectation_integration_function self)
               continuous_Z_ranges args
  else
    model ← lift (attr "conditional_expectation" (conditional_expectation self));
    data_predict ← lift (getitems x (causes self));
    call_reg_fit model (AFrame data_predict).

(** [CausalEffect.biased_mutual_information(X, x1, x2)].  The two [print]
    statements write to standard output only and are left out. *)
Definition biased_mutual_information (X : DataFrame num) (x1 x2 : string)
  : method num num :=
  set_self (set_x1 x1);;
  set_self (set_x2 x2);;
  self ← get_self;
  tag1 ← lift (dict_get (variable_types self) x1);
  let dep_type := [tag1] in
  tag2 ← lift (dict_get (variable_types self) x2);
  let indep_type := [tag2] in
  tag1' ← lift (dict_get (variable_types self) x1);
  tag2' ← lift (dict_get (variable_types self) x2);
  let density_types := [tag1'; tag2'] in
  let bw := bandwidth_rule density_types in
  data ← lift (getitems X [x2]);
  set_self (set_mi_density {| kde_data := AFrame data;
                              kde_var_type := str_join dep_type;
                              kde_bw := bw |});;
  endog ← lift (getitem X x2);
  exog ← lift (getitem X x1);
  set_self (set_mi_conditional_density
              {| ckde_endog := ASeries endog; ckde_exog := ASeries exog;
                 ckde_dep_type := str_join dep_type;
                 ckde_indep_type := str_join indep_type;
                 ckde_bw := bw |});;
  data ← lift (getitems X [x2]);
  set_self (set_x1_integration_density
              {| kde_data := AFrame data;
                 kde_var_type := str_join dep_type;
                 kde_bw := bw |});;
  self ← get_self;
  s2 ← lift (dict_get (support self) x2);
  let x2_range := [s2] in
  model ← lift (attr "mi_density" (mi_density self));
  set_self (set_integration_density model);;
  self ← get_self;
  model ← lift (attr "mi_conditional_density" (mi_conditional_density self));
  set_self (set_cond_integration_density model);;
  self ← get_self;
  Hx2 ← call_nquad EntropyIntegrationFunction
          (entropy_integration_function self) x2_range [];
  self ← get_self;
  s1 ← lift (dict_get (support self) x1);
  s2 ← lift (dict_get (support self) x2);
  let x1x2_range := [s1; s2] in
  Hx2givenx1 ← call_nquad EntropyIntegrationFunction
                 (entropy_integration_function self) x1x2_range [];
  mret (sub Hx2 Hx2givenx1).
End Methods.

(** ** Implementations of the interfaces *)

(** Iteration in key order, the order of [elements] and [map_to_list]. *)
#[refine] Instance key_order : IterationOrder := {
  set_iter := elements;
  dict_iter := λ V d, map_to_list d;
  dict_columns := λ V d, map_to_list d;
}.
Proof. all: done. Defined.

(** *** Exact rationals

    The rationals and one more value, the missing number.  Every rational
    result is reduced, so that equal numbers are equal terms.  The logarithm
    is not a rational function: it is a parameter.  Reductions skip the
    missing number, as pandas does; a column without numbers answers it. *)
Module Exact.
Inductive exact : Type :=
| Rational (q : Q)
| Missing.

Definition lift1 (f : Q → Q) (a : exact) : exact :=
  match a with
  | Rational p => Rational (Qred (f p))
  | Missing => Missing
  end.

Definition lift2 (f : Q → Q → Q) (a b : exact) : exact :=
  match a, b with
  | Rational p, Rational q => Rational (Qred (f p q))
  | _, _ => Missing
  end.

Definition rational (a : exact) : option Q :=
  match a with
  | Rational q => Some q
  | Missing => None
  end.

Definition fold_series (pick : Q → Q → Q) (s : list exact) : exact :=
  match omap rational s with
  | [] => Missing
  | v :: s => Rational (foldl pick v s)
  end.

Definition number (ln : Q → Q) : Number exact := {|
  zero := Rational 0;
  ten := Rational 10;
  add := lift2 Qplus;
  sub := lift2 Qminus;
  mul := lift2 Qmult;
  neg := lift1 Qopp;
  log := lift1 ln;
  NaN := Missing;
  isnan := λ a, match a with Missing => true | _ => false end;
  of_int := λ z, Rational (inject_Z z);
  to_int := λ a, q ← rational a; Some (Z.quot (Qnum q) (Z.pos (Qden q)));
  series_min := fold_series Qmin;
  series_max := fold_series Qmax;
|}.

Definition entries (a : array_like exact) : list exact :=
  match a with
  | AFrame X => mjoin (series X).*2
  | ASeries s => s
  | AValues rows => mjoin rows
  | ARow r => r
  end.

Definition width (a : array_like exact) : nat :=
  match a with
  | AFrame X => length (series X)
  | ASeries _ => 1
  | AValues rows => length (default [] (head rows))
  | ARow r => length r
  end.

(** A bump [1 / (1 + |v|^2)] at the origin; missing where a coordinate is. *)
Definition bump (v : list exact) : exact :=
  match mapM rational v with
  | Some v => Rational (Qred (1 / (1 + foldr (λ a acc, a * a + acc) 0 v))%Q)
  | None => Missing
  end.

(** The midpoint rule on one cell. *)
Definition midpoint_rule (f : list exact → res exact) (ranges : list (exact * exact))
  : res (exact * exact) :=
  v ← f ((λ r : exact * exact, lift2 (λ a b, (a + b) / 2)%Q r.1 r.2) <$> ranges);
  Ok (foldr (λ r acc, lift2 Qmult (lift1 Qabs (lift2 Qminus r.2 r.1)) acc) v ranges,
      Rational 0).

Definition collaborators : Collaborators exact := {|
  kde_pdf := λ _ data_predict, bump (entries data_predict);
  ckde_pdf := λ _ exog_predict endog_predict,
    bump (entries endog_predict ++ entries exog_predict);
  ckde_fitted_bw := λ model,
    replicate (width (ckde_endog model) + width (ckde_exog model))
              (Rational (1 # 2));
  reg_fit := λ _ data_predict,
    (foldr (lift2 Qplus) (Rational 0) (entries data_predict), Rational 0);
  nquad := midpoint_rule;
|}.
End Exact.

(** *** IEEE-754 binary64 *)
Module Binary64.
Local Open Scope float_scope.

Definition of_Z (z : Z) : float :=
  match z with
  | Z0 => 0
  | Zpos _ => of_uint63 (Uint63.of_Z z)
  | Zneg p => - of_uint63 (Uint63.of_Z (Zpos p))
  end.

(** [int(v)] truncates towards zero and raises on NaN and infinities. *)
Definition truncate (v : float) : option Z :=
  match Prim2SF v with
  | S754_zero _ => Some 0%Z
  | S754_finite s m e =>
      let magnitude := match e with
                       | Zneg p => Z.shiftr (Zpos m) (Zpos p)
                       | _ => Z.shiftl (Zpos m) e
                       end in
      Some (if s then (- magnitude)%Z else magnitude)
  | _ => None
  end.

(** [1 + t/3 + t^2/5 + ...], [n] more terms from the [k]-th on. *)
Fixpoint atanh_tail (t : float) (k : Z) (n : nat) : float :=
  match n with
  | O => 0
  | S n => 1 / of_Z (2 * k + 1) + t * atanh_tail t (k + 1) n
  end.

(** The natural logarithm: [-inf] at zero, NaN below, and
    [ln (m * 2^e) = 2 atanh ((m - 1) / (m + 1)) + e ln 2] above, with [m]
    between the square roots of 1/2 and 2. *)
Definition ln (v : float) : float :=
  if is_nan v then nan
  else if v <? 0 then nan
  else if v =? 0 then neg_infinity
  else if is_infinity v then infinity
  else
    let (m, e) := Z.frexp v in
    let (m, e) := if m <? 0x1.6a09e667f3bcdp-1 then (2 * m, (e - 1)%Z) else (m, e) in
    let t := (m - 1) / (m + 1) in
    2 * t * atanh_tail (t * t) 0 24 + of_Z e * 0x1.62e42fefa39efp-1.

(** Reductions skip NaN; a column without numbers answers NaN. *)
Definition fold_series (better : float → float → bool) (s : list float) : float :=
  foldl (λ acc v, if is_nan v then acc
                  else if is_nan acc then v
                  else if better v acc then v else acc) nan s.

Definition number : Number float := {|
  zero := 0;
  ten := 10;
  add := PrimFloat.add;
  sub := PrimFloat.sub;
  mul := PrimFloat.mul;
  neg := PrimFloat.opp;
  log := ln;
  NaN := nan;
  isnan := is_nan;
  of_int := of_Z;
  to_int := truncate;
  series_min := fold_series PrimFloat.ltb;
  series_max := fold_series (λ a b, PrimFloat.ltb b a);
|}.

Definition entries (a : array_like float) : list float :=
  match a with
  | AFrame X => mjoin (series X).*2
  | ASeries s => s
  | AValues rows => mjoin rows
  | ARow r => r
  end.

Definition width (a : array_like float) : nat :=
  match a with
  | AFrame X => length (series X)
  | ASeries _ => 1
  | AValues rows => length (default [] (head rows))
  | ARow r => length r
  end.

(** The uniform kernel on the unit cube around the origin: density
    [2^-d] inside, exactly zero outside. *)
Definition box (v : list float) : float :=
  foldr (λ a acc, if abs a <=? 1 then 0.5 * acc else 0) 1 v.

Definition midpoint_rule (f : list float → res float) (ranges : list (float * float))
  : res (float * float) :=
  v ← f ((λ r : float * float, (r.1 + r.2) / 2) <$> ranges);
  Ok (v * foldr (λ r acc, abs (r.2 - r.1) * acc) 1 ranges, 0).

Definition collaborators : Collaborators float := {|
  kde_pdf := λ _ data_predict, box (entries data_predict);
  ckde_pdf := λ _ exog_predict endog_predict,
    box (entries endog_predict ++ entries exog_predict);
  ckde_fitted_bw := λ model,
    replicate (width (ckde_endog model) + width (ckde_exog model)) 0.5;
  reg_fit := λ _ data_predict, (foldr PrimFloat.add 0 (entries data_predict), 0);
  nquad := midpoint_rule;
|}.
End Binary64.

(** * Properties *)

(** ** Results, comprehensions and frames *)

Lemma bind_Ok {A B} (m : res A) (f : A → res B) (b : B) :
  m ≫= f = Ok b → ∃ a, m = Ok a ∧ f a = Ok b.
Proof. destruct m as [a|e]; simpl; [eauto | discriminate]. Qed.

Lemma for_each_Forall2 {A B} (f : A → res B) (l : list A) (bs : list B) :
  for_each f l = Ok bs ↔ Forall2 (λ a b, f a = Ok b) l bs.
Proof.
  revert bs; induction l as [|a l IH]; intros bs; simpl.
  - split; [intros [= <-]; constructor | by inversion 1].
  - split.
    + intros (b & Hb & Hrest)%bind_Ok.
      apply bind_Ok in Hrest as (bs' & Hbs & [= <-]).
      constructor; [done | by apply IH].
    + inversion 1 as [|? b ? bs' Hb Hbs]; subst.
      apply IH in Hbs. by rewrite Hb, Hbs.
Qed.

Lemma for_each_total {A B} (f : A → res B) (g : A → B) (l : list A) :
  Forall (λ a, f a = Ok (g a)) l → for_each f l = Ok (g <$> l).
Proof.
  induction 1 as [|a l Ha _ IH]; simpl; [done | by rewrite Ha, IH].
Qed.

Lemma for_each_ext {A B} (f g : A → res B) (l : list A) :
  Forall (λ a, f a = g a) l → for_each f l = for_each g l.
Proof.
  induction 1 as [|a l Ha _ IH]; simpl; [done | by rewrite Ha, IH].
Qed.

Lemma for_each_app {A B} (f : A → res B) (l1 l2 : list A) (b1 b2 : list B) :
  for_each f l1 = Ok b1 → for_each f l2 = Ok b2 →
  for_each f (l1 ++ l2) = Ok (b1 ++ b2).
Proof.
  rewrite !for_each_Forall2. apply Forall2_app.
Qed.

Lemma for_each_Raise {A B} (f : A → res B) (l : list A) (a : A) (e : exn) :
  a ∈ l → f a = Raise e → ∃ e', for_each f l = Raise e'.
Proof.
  induction 1 as [a l|a a' l _ IH]; intros Ha; simpl.
  - rewrite Ha. eauto.
  - destruct (f a'); simpl; [|eauto].
    destruct (IH Ha) as [e' ->]. eauto.
Qed.

Lemma for_each_Raise_inv {A B} (f : A → res B) (l : list A) (e : exn) :
  for_each f l = Raise e → ∃ a, a ∈ l ∧ f a = Raise e.
Proof.
  induction l as [|a l IH]; simpl; [discriminate|].
  destruct (f a) as [b|e'] eqn:Ha; simpl.
  - destruct (for_each f l) as [bs|e'] eqn:Hl; simpl; [discriminate|].
    intros [= ->]. destruct (IH eq_refl) as (a' & Hin & Ha').
    exists a'. split; [by right | done].
  - intros [= ->]. exists a. split; [left | done].
Qed.

Section FrameLemmas.
Context {num : Type} `{!Number num}.
Implicit Types (X Y : DataFrame num) (k : string) (c : Series num).

Lemma find_series_app (cols1 cols2 : list (string * Series num)) k :
  find_series (cols1 ++ cols2) k
  = match find_series cols1 k with
    | Some c => Some c
    | None => find_series cols2 k
    end.
Proof.
  induction cols1 as [|[k' c] cols1 IH]; simpl; [done|]. by case_decide.
Qed.

Lemma find_column_app X Y k :
  find_column (hcat X Y) k
  = match find_column X k with
    | Some c => Some c
    | None => find_column Y k
    end.
Proof. apply find_series_app. Qed.

Lemma find_column_None X k : find_column X k = None ↔ k ∉ columns X.
Proof.
  unfold find_column, columns. induction (series X) as [|[k' c] cols IH]; simpl.
  - split; [intros _; apply not_elem_of_nil | done].
  - rewrite not_elem_of_cons. destruct (decide (k' = k)) as [->|Hne].
    + split; [done | by intros []].
    + rewrite IH. split; [by split | by intros []].
Qed.

Lemma find_column_Some_elem X k c : find_column X k = Some c → (k, c) ∈ series X.
Proof.
  unfold find_column. induction (series X) as [|[k' c'] cols IH]; simpl; [done|].
  case_decide; subst.
  - intros [= ->]. left.
  - intros. right. by apply IH.
Qed.

Lemma find_column_NoDup X k c :
  NoDup (columns X) → (k, c) ∈ series X → find_column X k = Some c.
Proof.
  unfold find_column, columns. induction (series X) as [|[k' c'] cols IH]; simpl.
  - by intros _ ?%elem_of_nil.
  - intros [Hk' HX]%NoDup_cons [[= <- <-]|Hin]%elem_of_cons.
    + by rewrite decide_True.
    + rewrite decide_False; [by apply IH|].
      intros ->. apply Hk'. apply list_elem_of_fmap. by exists (k, c).
Qed.

(** A frame with one computed column per label. *)
Lemma find_column_fmap (labels : list row_label) (g : string → Series num)
    (ks : list string) k :
  find_column (Frame labels ((λ v, (v, g v)) <$> ks)) k
  = if decide (k ∈ ks) then Some (g k) else None.
Proof.
  unfold find_column. cbn [series].
  induction ks as [|k' ks IH]; cbn [fmap list_fmap find_series].
  - rewrite decide_False; [done | apply not_elem_of_nil].
  - destruct (decide (k' = k)) as [->|Hne].
    + rewrite decide_True; [done | left].
    + rewrite IH. destruct (decide (k ∈ ks)).
      * rewrite decide_True; [done | by right].
      * rewrite decide_False; [done|]. rewrite not_elem_of_cons.
        split; [congruence | done].
Qed.

Lemma getitems_Forall2 X (ks : list string) Y :
  getitems X ks = Ok Y
  ↔ index Y = index X
    ∧ Forall2 (λ k kc, ∃ c, find_column X k = Some c ∧ kc = (k, c)) ks (series Y).
Proof.
  assert (∀ cols,
            for_each (λ k, c ← getitem X k; Ok (k, c)) ks = Ok cols
            ↔ Forall2 (λ k kc, ∃ c, find_column X k = Some c ∧ kc = (k, c)) ks cols)
    as Hcols.
  { intros cols. etrans; [apply for_each_Forall2|].
    split; intros HY; eapply Forall2_impl; [exact HY| |exact HY|];
      intros k kc; unfold getitem;
      destruct (find_column X k) as [c|]; simpl.
    - intros [= <-]. eauto.
    - discriminate.
    - by intros (c' & [= <-] & ->).
    - by intros (c' & [=] & _). }
  unfold getitems. split.
  - intros (cols & Hfor & [= <-])%bind_Ok. split; [done | by apply Hcols].
  - destruct Y as [labels cols]. cbn. intros [-> Hfor%Hcols]. by rewrite Hfor.
Qed.

Lemma index_getitems X ks Y : getitems X ks = Ok Y → index Y = index X.
Proof. by intros [? _]%getitems_Forall2. Qed.

Lemma columns_getitems X ks Y : getitems X ks = Ok Y → columns Y = ks.
Proof.
  intros [_ HY]%getitems_Forall2. unfold columns.
  induction HY as [|k kc ks cols (c & _ & ->) _ IH]; csimpl; [done | by f_equal].
Qed.

(** Selecting columns depends on those columns and on the index only. *)
Lemma getitems_ext X Y ks :
  index X = index Y →
  (∀ k, k ∈ ks → find_column X k = find_column Y k) →
  getitems X ks = getitems Y ks.
Proof.
  intros Hindex Heq. unfold getitems. rewrite Hindex. f_equal.
  apply for_each_ext, Forall_forall.
  intros k Hk. unfold getitem. by rewrite (Heq k Hk).
Qed.

Lemma find_column_getitems X ks Y k :
  getitems X ks = Ok Y → k ∈ ks → find_column Y k = find_column X k.
Proof.
  intros [_ HY]%getitems_Forall2. unfold find_column at 1.
  induction HY as [|k' kc ks cols (c & Hc & ->) _ IH]; simpl.
  - by intros ?%elem_of_nil.
  - case_decide; subst; [done|].
    intros [->|Hin]%elem_of_cons; [done | by apply IH].
Qed.

(** Selecting from a selection. *)
Lemma getitems_getitems X ks Y ks' :
  getitems X ks = Ok Y → ks' ⊆ ks → getitems Y ks' = getitems X ks'.
Proof.
  intros HY Hsub. apply getitems_ext; [by eapply index_getitems|].
  intros k Hk. eapply find_column_getitems; [done | by apply Hsub].
Qed.

Lemma getitems_app X ks1 ks2 Y1 Y2 :
  getitems X ks1 = Ok Y1 → getitems X ks2 = Ok Y2 →
  getitems X (ks1 ++ ks2) = Ok (hcat Y1 Y2).
Proof.
  rewrite !getitems_Forall2. intros [H1 HY1] [H2 HY2].
  split; [done | by apply Forall2_app].
Qed.

Lemma getitems_app_inv X ks1 ks2 Y :
  getitems X (ks1 ++ ks2) = Ok Y →
  ∃ Y1 Y2, Y = hcat Y1 Y2 ∧ getitems X ks1 = Ok Y1 ∧ getitems X ks2 = Ok Y2.
Proof.
  destruct Y as [labels cols]. rewrite getitems_Forall2. cbn.
  intros [-> (cols1 & cols2 & H1 & H2 & ->)%Forall2_app_inv_l].
  exists (Frame (index X) cols1), (Frame (index X) cols2).
  by rewrite !getitems_Forall2.
Qed.

Lemma getitems_missing X ks k :
  k ∈ ks → k ∉ columns X → ∃ e, getitems X ks = Raise e.
Proof.
  intros Hk Hmiss%find_column_None. unfold getitems.
  destruct (for_each_Raise (λ k, c ← getitem X k; Ok (k, c)) ks k (KeyError k) Hk)
    as [e ->]; [|by eauto].
  unfold getitem. by rewrite Hmiss.
Qed.

Lemma getitems_Raise X (ks : list string) (e : exn) :
  getitems X ks = Raise e → ∃ k, e = KeyError k ∧ k ∈ ks ∧ k ∉ columns X.
Proof.
  unfold getitems.
  destruct (for_each (λ k, c ← getitem X k; Ok (k, c)) ks) as [cols|e'] eqn:Hfor;
    [discriminate|].
  intros [= ->]. apply for_each_Raise_inv in Hfor as (k & Hk & Hget). exists k.
  unfold getitem in Hget. destruct (find_column X k) eqn:Hfind; [discriminate|].
  injection Hget as <-. split_and!; [done..|]. by apply find_column_None.
Qed.

Lemma getitems_total X (ks : list string) :
  (∀ k, k ∈ ks → k ∈ columns X) → ∃ Y, getitems X ks = Ok Y.
Proof.
  intros Hall. destruct (getitems X ks) as [Y|e] eqn:Hget; [eauto|].
  apply getitems_Raise in Hget as (k & _ & Hk & Hmiss). by apply Hall in Hk.
Qed.

(** *** The join on the index *)

(** A frame of one row with the label 0, as a frame built from a dict of
    one-element lists is. *)
Definition default_row X : Prop :=
  index X = [IntLabel 0]
  ∧ Forall (λ col : string * Series num, length col.2 = 1%nat) (series X).

Lemma default_row_getitems X ks Y :
  default_row X → getitems X ks = Ok Y → default_row Y.
Proof.
  intros [Hindex Hone] [HY Hcols]%getitems_Forall2.
  split; [by rewrite HY|].
  apply Forall_forall. intros [k c] [i Hi]%list_elem_of_lookup.
  destruct (Forall2_lookup_r _ _ _ _ _ Hcols Hi) as (k' & _ & c' & Hc' & [= <- <-]).
  apply find_column_Some_elem in Hc'.
  by apply (proj1 (Forall_forall _ _) Hone (k, c)).
Qed.

Lemma default_row_hcat X Y : default_row X → default_row Y → default_row (hcat X Y).
Proof. intros [HX HcX] [HY HcY]. split; [done | by apply Forall_app]. Qed.


(** Two frames of one row labelled 0 are joined side by side. *)
Lemma join_disjoint X Y :
  default_row X → default_row Y →
  (∀ k, k ∈ columns Y → k ∉ columns X) → join X Y = Ok (hcat X Y).
Proof.
  intros [HX HcX] [HY HcY] Hdisj. unfold join. rewrite bool_decide_eq_false_2.
  2:{ rewrite Exists_exists. intros (k & Hk & HX'). by apply (Hdisj k). }
  rewrite HX, HY. cbn [join_rows matches]. rewrite decide_True by done.
  unfold hcat. rewrite HX. cbn. do 2 f_equal.
  assert (∀ cols : list (string * Series num),
            Forall (λ col, length col.2 = 1%nat) cols →
            (λ col : string * Series num, (col.1, [default NaN (col.2 !! 0%nat)]))
              <$> cols = cols) as Hsame.
  { intros cols Hcols. induction Hcols as [|[k [|v [|??]]] cols Hlen _ IH];
      csimpl; try done. by rewrite IH. }
  by rewrite (Hsame _ HcX), (Hsame _ HcY).
Qed.
End FrameLemmas.

(** ** Dicts *)

Section DictLemmas.
Context {V : Type}.
Implicit Types (l : list (string * V)) (k : string) (v : V).

Lemma dict_of_pairs_snoc l k v :
  dict_of_pairs (l ++ [(k, v)]) = <[k := v]> (dict_of_pairs l).
Proof. unfold dict_of_pairs. by rewrite foldl_snoc. Qed.

Lemma dict_of_pairs_lookup_Some l k v :
  dict_of_pairs l !! k = Some v → (k, v) ∈ l.
Proof.
  induction l as [|[k' v'] l IH] using rev_ind; [done|].
  rewrite dict_of_pairs_snoc, elem_of_app, list_elem_of_singleton.
  destruct (decide (k' = k)) as [->|Hne].
  - rewrite lookup_insert_eq. intros [= ->]. by right.
  - rewrite lookup_insert_ne by done. intros. left. by apply IH.
Qed.

Lemma dict_of_pairs_lookup_None l k :
  dict_of_pairs l !! k = None ↔ k ∉ l.*1.
Proof.
  induction l as [|[k' v'] l IH] using rev_ind.
  - split; [intros _; apply not_elem_of_nil | done].
  - rewrite dict_of_pairs_snoc, fmap_app, not_elem_of_app. simpl.
    rewrite list_elem_of_singleton.
    destruct (decide (k' = k)) as [->|Hne].
    + rewrite lookup_insert_eq. split; [done | by intros [_ []]].
    + rewrite lookup_insert_ne by done. rewrite IH.
      split; [by split | by intros []].
Qed.

Lemma dict_of_pairs_is_Some l k : k ∈ l.*1 → is_Some (dict_of_pairs l !! k).
Proof.
  intros Hk. destruct (dict_of_pairs l !! k) eqn:Hl; [done|].
  by apply dict_of_pairs_lookup_None in Hl.
Qed.

Lemma dict_of_pairs_NoDup l k v :
  NoDup l.*1 → (k, v) ∈ l → dict_of_pairs l !! k = Some v.
Proof.
  intros Hnd Hin.
  destruct (dict_of_pairs_is_Some l k) as [v' Hv'].
  { apply list_elem_of_fmap. by exists (k, v). }
  rewrite Hv'. f_equal.
  apply dict_of_pairs_lookup_Some in Hv'.
  pose proof (elem_of_list_to_map_1 (M := gmap string) l k v Hnd Hin) as H1.
  pose proof (elem_of_list_to_map_1 (M := gmap string) l k v' Hnd Hv') as H2.
  congruence.
Qed.
End DictLemmas.

Lemma dict_of_pairs_fmap {V W} (g : V → W) (l : list (string * V)) :
  dict_of_pairs (prod_map id g <$> l) = g <$> dict_of_pairs l.
Proof.
  induction l as [|[k v] l IH] using rev_ind.
  { unfold dict_of_pairs. simpl. by rewrite fmap_empty. }
  rewrite fmap_app. csimpl. rewrite !dict_of_pairs_snoc, IH.
  by rewrite fmap_insert.
Qed.

Lemma NoDup_fst_zip {A B} (ks : list A) (vs : list B) :
  NoDup ks → NoDup (zip ks vs).*1.
Proof.
  intros Hnd. revert vs. induction Hnd as [|k ks Hk _ IH]; intros [|v vs]; csimpl;
    try constructor; [|done].
  intros (kv & -> & Hin)%list_elem_of_fmap. apply Hk.
  destruct kv as [k' v']. by apply elem_of_zip_l in Hin.
Qed.

(** The dict of a [zip] reads at a label what stands at its position. *)
Lemma dict_of_zip_lookup {V} (ks : list string) (vs : list V) (i : nat) k v :
  NoDup ks → ks !! i = Some k → vs !! i = Some v →
  dict_of_pairs (zip ks vs) !! k = Some v.
Proof.
  intros Hnd Hk Hv. apply dict_of_pairs_NoDup; [by apply NoDup_fst_zip|].
  apply list_elem_of_lookup. exists i.
  rewrite lookup_zip_with, Hk. simpl. by rewrite Hv.
Qed.

(** A frame built from a dict has the dict's columns. *)
Lemma find_column_dict_columns `{!IterationOrder} {num}
    (labels : list row_label) (d : gmap string (Series num)) (k : string) :
  find_column (Frame labels (dict_columns d)) k = d !! k.
Proof.
  set (X := Frame labels (dict_columns d)).
  assert (NoDup (columns X)) as Hnd.
  { unfold columns, X. cbn [series]. rewrite dict_columns_perm.
    apply NoDup_fst_map_to_list. }
  destruct (d !! k) as [c|] eqn:Hd.
  - apply find_column_NoDup; [done|]. unfold X. cbn [series].
    rewrite dict_columns_perm. by apply elem_of_map_to_list.
  - apply find_column_None. unfold columns, X. cbn [series].
    rewrite dict_columns_perm.
    intros (kc & -> & Hin)%list_elem_of_fmap. destruct kc as [k' c].
    apply elem_of_map_to_list in Hin. simpl in Hd. congruence.
Qed.

(** ** Construction *)

(** One step backwards through a computation that returned. *)
Ltac inv_res :=
  match goal with
  | H : mbind _ _ = Ok _ |- _ => apply bind_Ok in H as (? & ? & ?)
  | H : Ok _ = Ok _ |- _ => injection H as ?; subst
  | H : Some _ = Some _ |- _ => injection H as ?; subst
  | H : Raise _ = Ok _ |- _ => discriminate H
  | H : attr _ ?o = Ok _ |- _ => destruct o eqn:?; simpl in H
  | H : local _ ?o = Ok _ |- _ => destruct o eqn:?; simpl in H
  | H : (if ?b then _ else _) = Ok _ |- _ => destruct b eqn:?
  | H : match ?m with _ => _ end = Ok _ |- _ => destruct m eqn:?
  end.

Section ConstructionLemmas.
Context {num : Type} `{!Number num} `{!Collaborators num} `{!IterationOrder}.
Implicit Types (X : DataFrame num) (self : CausalEffect num).

Lemma init_Ok X (c e a : list string) vt (exp d : bool) self :
  __init__ X c e a vt exp d = Ok self →
  ∃ types dep_type indep_type density_types endog exog data self_support,
    let bw := bandwidth_rule (dict_values types) in
    let conditional :=
      {| ckde_endog := AFrame endog; ckde_exog := AFrame exog;
         ckde_dep_type := str_join dep_type;
         ckde_indep_type := str_join indep_type; ckde_bw := bw |} in
    let discrete :=
      (filter (λ item : string * string, item.2 ∈ ["o"; "u"]) (dict_iter types)).*1 in
    let continuous :=
      (filter (λ item : string * string, item.2 = "c") (dict_iter types)).*1 in
    vt = Some types ∧ types ≠ ∅ ∧
    for_each (dict_get types) e = Ok dep_type ∧
    for_each (dict_get types) (c ++ a) = Ok indep_type ∧
    for_each (dict_get types) a = Ok density_types ∧
    getitems X e = Ok endog ∧
    getitems X (c ++ a) = Ok exog ∧
    (a ≠ [] → getitems X a = Ok data) ∧
    __get_support e (c ++ a) types conditional X = Ok self_support ∧
    self = {|
      causes := c; effects := e; admissable_set := a;
      conditional_density_vars := c ++ a;
      variable_types := types;
      density :=
        if bool_decide (a ≠ []) then
          Some {| kde_data := AFrame data;
                  kde_var_type := str_join density_types; kde_bw := bw |}
        else None;
      conditional_density := conditional;
      conditional_expectation :=
        if exp then
          Some {| reg_endog := AValues (values endog);
                  reg_exog := AValues (values exog);
                  reg_var_type := str_join indep_type; reg_bw := "cv_ls" |}
        else None;
      support := self_support;
      discrete_variables := discrete;
      discrete_Z := set_iter (list_to_set discrete ∩ list_to_set a);
      continuous_variables := continuous;
      continuous_Z := set_iter (list_to_set continuous ∩ list_to_set a);
      x1 := None; x2 := None; mi_density := None;
      mi_conditional_density := None; x1_integration_density := None;
      integration_density := None; cond_integration_density := None |}.
Proof.
  unfold __init__. intros Hinit. cbv zeta in Hinit.
  repeat inv_res; try discriminate.
  all: simpl in *; simplify_eq.
  all: repeat match goal with
         | H1 : ?t = Ok _, H2 : ?t = Ok _ |- _ =>
             rewrite H1 in H2; injection H2 as <-
         end.
  all: match goal with
       | Hne : bool_decide (_ ≠ ∅) = true |- _ =>
           apply bool_decide_eq_true in Hne
       end.
  all: match goal with
       | Ha : bool_decide (_ ≠ []) = true |- _ =>
           eexists _, _, _, _, _, _, _, _; split_and!; try done
       | Ha : bool_decide (_ ≠ []) = false |- _ =>
           apply bool_decide_eq_false in Ha;
           eexists _, _, _, _, _, _, (Frame [] []), _; split_and!; try done
       end.
Qed.

(** A loop that stores one computed entry per variable: afterwards every
    variable of the loop reads its own entry, the other keys are
    untouched. *)
Lemma for_fold_insert {V} (val : string → res V)
    (f : gmap string V → string → res (gmap string V))
    (vars : list string) (acc sup : gmap string V) (v : string) :
  (∀ acc v, f acc v = s ← val v; Ok (<[v := s]> acc)) →
  for_fold f acc vars = Ok sup →
  (v ∈ vars → ∃ s, val v = Ok s ∧ sup !! v = Some s)
  ∧ (v ∉ vars → sup !! v = acc !! v).
Proof.
  intros Hf. revert acc. induction vars as [|k vars IH]; intros acc; simpl.
  - intros [= <-]. split; [by intros ?%elem_of_nil | done].
  - rewrite Hf. intros (acc' & (s & Hs & [= <-])%bind_Ok & Hrest)%bind_Ok.
    destruct (IH _ Hrest) as [IHin IHout].
    destruct (decide (v ∈ vars)) as [Hin|Hout].
    + split; [by intros _; apply IHin|]. rewrite not_elem_of_cons. by intros [].
    + rewrite (IHout Hout). split.
      * intros [->|?]%elem_of_cons; [|done].
        exists s. by rewrite lookup_insert_eq.
      * intros [Hne _]%not_elem_of_cons. by rewrite lookup_insert_ne.
Qed.

(** The entry [__get_support] computes for one variable. *)
Definition support_entry (types : gmap string string)
    (data_support : gmap string (num * num))
    (variable_bandwidths : gmap string num) (variable : string)
  : res (num * num) :=
  tag ← dict_get types variable;
  s ← dict_get data_support variable;
  if bool_decide (tag = "c") then
    bw ← dict_get variable_bandwidths variable;
    Ok (sub s.1 (mul ten bw), add s.2 (mul ten bw))
  else Ok s.

Lemma get_support_Ok (e cdv : list string) types model X sup :
  __get_support e cdv types model X = Ok sup →
  ∃ data_support,
    (∀ v col, find_column X v = Some col →
              data_support !! v = Some (series_min col, series_max col))
    ∧ ∀ v, v ∈ e ++ cdv →
        ∃ s, support_entry types data_support
               (dict_of_pairs (zip (e ++ cdv) (ckde_fitted_bw model))) v = Ok s
             ∧ sup !! v = Some s.
Proof.
  unfold __get_support. intros (pairs & Hpairs & Hfold)%bind_Ok.
  exists (dict_of_pairs pairs). split.
  - intros v col Hcol. apply for_each_Forall2 in Hpairs.
    assert (pairs.*1 = columns X) as Hkeys.
    { clear -Hpairs. revert Hpairs. generalize (columns X). intros ks Hpairs.
      induction Hpairs as [|k p ks ps Hk _ IH]; [done|]. csimpl.
      apply bind_Ok in Hk as (? & _ & [= <-]). by f_equal. }
    destruct (dict_of_pairs_is_Some pairs v) as [s Hs].
    { rewrite Hkeys. apply find_column_Some_elem in Hcol.
      apply list_elem_of_fmap. by exists (v, col). }
    rewrite Hs. f_equal.
    apply dict_of_pairs_lookup_Some, list_elem_of_lookup in Hs as [i Hi].
    destruct (Forall2_lookup_r _ _ _ _ _ Hpairs Hi) as (k & _ & Hk).
    apply bind_Ok in Hk as (col' & Hcol' & [= -> <-]).
    unfold getitem in Hcol'. rewrite Hcol in Hcol'. by injection Hcol' as <-.
  - intros v Hv. eapply for_fold_insert in Hfold as [Hin _]; [by apply Hin|].
    clear. intros acc v. unfold support_entry.
    destruct (dict_get types v) as [tag|]; simpl; [|done].
    destruct (dict_get (dict_of_pairs pairs) v) as [s|]; simpl;
      case_bool_decide; simpl; try done.
    by destruct (dict_get _ v).
Qed.
End ConstructionLemmas.

(** ** The support cube *)

Section SupportCube.
Context {num : Type} `{!Number num} `{!Collaborators num} `{!IterationOrder}.
Implicit Types (X : DataFrame num) (self : CausalEffect num).

Lemma getitems_find X (ks : list string) Y (k : string) :
  getitems X ks = Ok Y → k ∈ ks → ∃ col, find_column X k = Some col.
Proof.
  intros [_ HY]%getitems_Forall2 [i Hi]%list_elem_of_lookup.
  destruct (Forall2_lookup_l _ _ _ _ _ HY Hi) as (kc & _ & col & Hcol & _).
  eauto.
Qed.

(** C3.  At construction every variable of effects, causes and the
    admissible set gets its support.  A continuous variable gets its
    empirical minimum minus ten bandwidths and its empirical maximum plus
    ten bandwidths, the bandwidth being the entry of the conditional
    density's fitted vector at the variable's position in effects followed
    by causes and the admissible set.  Any other variable gets its
    empirical minimum and maximum unchanged. *)
Theorem support_cube_entry X (c e a : list string) vt (exp d : bool) self
    (i : nat) (v : string) :
  __init__ X c e a vt exp d = Ok self →
  NoDup (e ++ c ++ a) →
  (e ++ c ++ a) !! i = Some v →
  ∃ column tag,
    getitem X v = Ok column
    ∧ variable_types self !! v = Some tag
    ∧ (tag = "c" →
       ∃ bw, ckde_fitted_bw (conditional_density self) !! i = Some bw
             ∧ support self !! v
               = Some (sub (series_min column) (mul ten bw),
                       add (series_max column) (mul ten bw)))
    ∧ (tag ≠ "c" →
       support self !! v = Some (series_min column, series_max column)).
Proof.
  intros (types & dep & indep & dens & endog & exog & data & sup & Hbuilt)%init_Ok
         Hnd Hi.
  cbv zeta in Hbuilt.
  destruct Hbuilt as (-> & _ & _ & _ & _ & Hendog & Hexog & _ & Hsup & ->).
  cbn [variable_types conditional_density support].
  assert (v ∈ e ++ c ++ a) as Hv by (apply list_elem_of_lookup; eauto).
  assert (∃ col, find_column X v = Some col) as [col Hcol].
  { apply elem_of_app in Hv as [Hv'|Hv'];
      [exact (getitems_find _ _ _ _ Hendog Hv')
      |exact (getitems_find _ _ _ _ Hexog Hv')]. }
  apply get_support_Ok in Hsup as (ds & Hds & Hentries).
  destruct (Hentries v Hv) as (s & Hs & Hlook).
  unfold support_entry in Hs.
  apply bind_Ok in Hs as (tag & Htag & Hs).
  apply bind_Ok in Hs as (s0 & Hs0 & Hs).
  unfold dict_get in Htag, Hs0. rewrite (Hds v col Hcol) in Hs0.
  injection Hs0 as <-.
  destruct (types !! v) as [tag'|] eqn:Htypes; [|done]. injection Htag as ->.
  exists col, tag. unfold getitem. rewrite Hcol.
  split_and!; [done..| |]; intros Htag.
  - rewrite bool_decide_eq_true_2 in Hs by done.
    apply bind_Ok in Hs as (bw & Hbw & [= <-]).
    exists bw. split; [|done].
    unfold dict_get in Hbw.
    destruct (dict_of_pairs _ !! v) as [bw'|] eqn:Hzip; [|done].
    injection Hbw as ->.
    apply dict_of_pairs_lookup_Some, list_elem_of_lookup in Hzip as [j Hj].
    apply lookup_zip_with_Some in Hj as (v' & bw' & [= <- <-] & Hj & Hbw).
    by rewrite (NoDup_lookup _ _ _ _ Hnd Hi Hj).
  - rewrite bool_decide_eq_false_2 in Hs by done. by injection Hs as <-.
Qed.
End SupportCube.

(** ** Running methods *)

Section MethodLemmas.
Context {num : Type} `{!Number num} `{!Collaborators num} `{!IterationOrder}.
Implicit Types (self : CausalEffect num) (w : world num).

Lemma run_bind {A B} (m : method num A) (f : A → method num B) w :
  (m ≫= f) w
  = match m w with
    | (Ok a, w') => f a w'
    | (Raise e, w') => (Raise e, w')
    end.
Proof. done. Qed.

Lemma run_get_self {B} (f : CausalEffect num → method num B) w :
  (get_self ≫= f) w = f w.1 w.
Proof. done. Qed.

Lemma run_lift_Ok {A B} (a : A) (f : A → method num B) w :
  (lift (Ok a) ≫= f) w = f a w.
Proof. done. Qed.

Lemma run_lift_Raise {A B} (e : exn) (f : A → method num B) w :
  (lift (Raise e) ≫= f) w = (Raise e, w).
Proof. done. Qed.

(** A method that assigns no attribute. *)
Definition read_only {A} (m : method num A) : Prop :=
  ∀ w, (m w).2.1 = w.1.

Lemma read_only_ret {A} (a : A) : read_only (mret a).
Proof. done. Qed.

Lemma read_only_get_self : read_only get_self.
Proof. done. Qed.

Lemma read_only_lift {A} (r : res A) : read_only (lift r).
Proof. done. Qed.

Lemma read_only_logged {A} (c : call num) (r : res A) : read_only (logged c r).
Proof. done. Qed.

Lemma read_only_bind {A B} (m : method num A) (f : A → method num B) :
  read_only m → (∀ a, read_only (f a)) → read_only (m ≫= f).
Proof.
  intros Hm Hf w. rewrite run_bind. specialize (Hm w).
  destruct (m w) as [[a|e] w']; simpl in *; [|done].
  by rewrite Hf.
Qed.

Lemma read_only_if {A} (b : bool) (m1 m2 : method num A) :
  read_only m1 → read_only m2 → read_only (if b then m1 else m2).
Proof. by destruct b. Qed.

Lemma read_only_for_loop {A B} (body : B → A → method num B) (b : B) (l : list A) :
  (∀ b a, read_only (body b a)) → read_only (for_loop body b l).
Proof.
  intros Hbody. revert b. induction l as [|a l IH]; intros b; simpl.
  - apply read_only_ret.
  - apply read_only_bind; [apply Hbody | apply IH].
Qed.

Lemma set_iter_empty : set_iter ∅ = [].
Proof.
  apply Permutation_nil_r. rewrite set_iter_perm. by rewrite elements_empty.
Qed.

Lemma elem_of_set_iter (s : gset string) (k : string) : k ∈ set_iter s ↔ k ∈ s.
Proof. by rewrite set_iter_perm, elem_of_elements. Qed.

Lemma NoDup_set_iter (s : gset string) : NoDup (set_iter s).
Proof. rewrite set_iter_perm. apply NoDup_elements. Qed.
End MethodLemmas.

(** Decomposes a goal [read_only m] along the structure of [m]. *)
Ltac read_only :=
  repeat first
    [ apply read_only_for_loop; intros
    | apply read_only_bind; [|intros]
    | apply read_only_if
    | apply read_only_ret | apply read_only_get_self
    | apply read_only_lift | apply read_only_logged ].

Section Queries.
Context {num : Type} `{!Number num} `{!Collaborators num} `{!IterationOrder}.
Implicit Types (X x : DataFrame num) (self : CausalEffect num) (w : world num).

Lemma pdf_read_only x : read_only (pdf x).
Proof. unfold pdf, call_nquad, call_ckde_pdf, call_kde_pdf. read_only. Qed.

Lemma expected_value_read_only x : read_only (expected_value x).
Proof.
  unfold expected_value, call_nquad, call_reg_fit, call_kde_pdf. read_only.
Qed.

End Queries.

(** ** Constructed estimators *)

Section Constructed.
Context {num : Type} `{!Number num} `{!Collaborators num} `{!IterationOrder}.
Implicit Types (X x : DataFrame num) (self : CausalEffect num) (w : world num).

Lemma elem_of_tagged (Q : string * string → Prop) `{!∀ item, Decision (Q item)}
    (types : gmap string string) (k : string) :
  k ∈ (filter Q (dict_iter types)).*1 ↔ ∃ t, types !! k = Some t ∧ Q (k, t).
Proof.
  rewrite list_elem_of_fmap. split.
  - intros ([k' t] & -> & [HQ Hin]%list_elem_of_filter).
    rewrite dict_iter_perm in Hin. apply elem_of_map_to_list in Hin. eauto.
  - intros (t & Ht & HQ). exists (k, t). split; [done|].
    apply list_elem_of_filter. split; [done|].
    rewrite dict_iter_perm. by apply elem_of_map_to_list.
Qed.

(** What holds of every estimator that [__init__] returns. *)
Lemma constructed X (c e a : list string) vt (exp d : bool) self :
  __init__ X c e a vt exp d = Ok self →
  vt = Some (variable_types self)
  ∧ causes self = c ∧ effects self = e ∧ admissable_set self = a
  ∧ conditional_density_vars self = c ++ a
  ∧ (∀ k, k ∈ discrete_Z self
          ↔ k ∈ a ∧ ∃ t, variable_types self !! k = Some t ∧ t ∈ ["o"; "u"])
  ∧ (∀ k, k ∈ continuous_Z self ↔ k ∈ a ∧ variable_types self !! k = Some "c")
  ∧ NoDup (discrete_Z self) ∧ NoDup (continuous_Z self)
  ∧ (a ≠ [] → is_Some (density self))
  ∧ (exp = true → is_Some (conditional_expectation self))
  ∧ (∀ k, k ∈ e ++ c ++ a → is_Some (variable_types self !! k))
  ∧ (∀ k, k ∈ e ++ c ++ a → is_Some (support self !! k)).
Proof.
  intros (types & dep & indep & dens & endog & exog & data & sup & Hbuilt)%init_Ok.
  cbv zeta in Hbuilt.
  destruct Hbuilt as (-> & _ & Hdep & Hindep & _ & _ & _ & _ & Hsup & ->).
  cbn [variable_types causes effects admissable_set conditional_density_vars
       discrete_Z continuous_Z density conditional_expectation support].
  split_and!; try done.
  - intros k. rewrite elem_of_set_iter, elem_of_intersection, !elem_of_list_to_set.
    rewrite elem_of_tagged. simpl. tauto.
  - intros k. rewrite elem_of_set_iter, elem_of_intersection, !elem_of_list_to_set.
    rewrite elem_of_tagged. simpl. split.
    + by intros [(t & Ht & ->) Ha].
    + intros [Ha Ht]. eauto.
  - apply NoDup_set_iter.
  - apply NoDup_set_iter.
  - intros Ha. by rewrite bool_decide_eq_true_2.
  - by intros ->.
  - intros k [Hk|Hk]%elem_of_app.
    + apply for_each_Forall2 in Hdep.
      apply list_elem_of_lookup in Hk as [i Hi].
      destruct (Forall2_lookup_l _ _ _ _ _ Hdep Hi) as (t & _ & Ht).
      unfold dict_get in Ht. by destruct (types !! k).
    + apply for_each_Forall2 in Hindep.
      apply list_elem_of_lookup in Hk as [i Hi].
      destruct (Forall2_lookup_l _ _ _ _ _ Hindep Hi) as (t & _ & Ht).
      unfold dict_get in Ht. by destruct (types !! k).
  - intros k Hk. apply get_support_Ok in Hsup as (ds & _ & Hentries).
    destruct (Hentries k Hk) as (s & _ & ->). eauto.
Qed.

(** C2.  With an empty admissible set [pdf] is one evaluation of the
    conditional density at the query's causes and effects, and
    [expected_value], when the regression was requested at construction, is
    one evaluation of the regression at the query's causes.  The log shows
    that single call: no marginal density, no loop, no quadrature. *)
Theorem no_admissible_set X (c e : list string) vt (exp d : bool) self
    (log : list (call num)) x xc :
  __init__ X c e [] vt exp d = Ok self →
  getitems x c = Ok xc →
  (∀ xe, getitems x e = Ok xe →
     pdf x (self, log)
     = (Ok (ckde_pdf (conditional_density self) (AFrame xc) (AFrame xe)),
        (self, log ++ [CallCkdePdf (conditional_density self)
                                   (AFrame xc) (AFrame xe)])))
  ∧ (exp = true →
     ∃ model,
       conditional_expectation self = Some model
       ∧ expected_value x (self, log)
         = (Ok (reg_fit model (AFrame xc)).1,
            (self, log ++ [CallRegFit model (AFrame xc)]))).
Proof.
  intros (_ & Hc & He & Ha & _ & HdZ & HcZ & _ & _ & _ & Hexp & _)%constructed Hxc.
  assert (discrete_Z self = []) as HdZ'.
  { apply elem_of_nil_inv. intros k [[]%elem_of_nil _]%HdZ. }
  assert (continuous_Z self = []) as HcZ'.
  { apply elem_of_nil_inv. intros k [[]%elem_of_nil _]%HcZ. }
  split.
  - intros xe Hxe. unfold pdf. rewrite run_get_self. cbn [fst].
    rewrite Hc, He, HdZ', HcZ'.
    rewrite (getitems_app _ _ _ _ _ Hxc Hxe), run_lift_Ok.
    rewrite !bool_decide_eq_false_2 by (by intros []).
    rewrite (getitems_getitems x (c ++ e) (hcat xc xe) c), Hxc, run_lift_Ok;
      [|by apply getitems_app|by intros k Hk; apply elem_of_app; left].
    rewrite (getitems_getitems x (c ++ e) (hcat xc xe) e), Hxe, run_lift_Ok;
      [|by apply getitems_app|by intros k Hk; apply elem_of_app; right].
    done.
  - intros Hexp'. destruct (Hexp Hexp') as [model Hmodel]. exists model.
    split; [done|].
    unfold expected_value. rewrite run_get_self. cbn [fst].
    rewrite Hc, HdZ', HcZ', Hxc, run_lift_Ok.
    rewrite !bool_decide_eq_false_2 by (by intros []).
    rewrite Hmodel. cbn [attr]. rewrite run_lift_Ok.
    rewrite (getitems_getitems x c xc c), Hxc, run_lift_Ok; done.
Qed.
End Constructed.

(** ** Summation over discrete confounders *)

Section DiscreteConfounders.
Context {num : Type} `{!Number num} `{!Collaborators num} `{!IterationOrder}.
Implicit Types (X x : DataFrame num) (self : CausalEffect num) (w : world num).

(** The inclusive integer range the support cube records for a variable. *)
Definition support_range self (variable : string) : option (list Z) :=
  s ← support self !! variable;
  lo ← to_int s.1;
  hi ← to_int s.2;
  Some (seqZ lo (hi - lo + 1)).

(** The frame of one row labelled 0 that assigns to each admissible
    variable the coordinate of the point [z_vals], whose coordinates are
    labelled [names]. *)
Definition confounders_frame (a names : list string) (z_vals : list Z)
  : DataFrame num :=
  Frame [IntLabel 0]
        ((λ v, (v, [of_int (dict_of_pairs (zip names z_vals) !!! v)])) <$> a).



Lemma discrete_ranges_Ok self (ranges : list (list Z)) :
  mapM (support_range self) (discrete_Z self) = Some ranges →
  discrete_ranges self = Ok ranges.
Proof.
  rewrite mapM_Some. unfold discrete_ranges. intros Hranges.
  apply for_each_Forall2. eapply Forall2_impl; [exact Hranges|].
  intros v r. unfold support_range, dict_get, int, xrange.
  destruct (support self !! v) as [[lo hi]|]; simpl; [|done].
  destruct (to_int lo) as [ilo|]; simpl; [|done].
  destruct (to_int hi) as [ihi|]; simpl; [|done].
  intros [= <-]. do 2 f_equal. lia.
Qed.

Lemma product_length {A} (ranges : list (list A)) (point : list A) :
  point ∈ product ranges → length point = length ranges.
Proof.
  revert point. induction ranges as [|r ranges IH]; intros point; simpl.
  - by intros ->%list_elem_of_singleton.
  - intros (v & Hpoint & _)%list_elem_of_bind.
    apply list_elem_of_bind in Hpoint as (t & ->%list_elem_of_singleton & Ht).
    simpl. f_equal. by apply IH.
Qed.

Lemma for_loop_run {A B} (body : B → A → method num B) (g : B → A → B)
    (calls : A → list (call num)) (l : list A) (b : B) w :
  (∀ b a w, a ∈ l → body b a w = (Ok (g b a), (w.1, w.2 ++ calls a))) →
  for_loop body b l w = (Ok (foldl g b l), (w.1, w.2 ++ mjoin (calls <$> l))).
Proof.
  revert b w. induction l as [|a l IH]; intros b w Hbody; simpl.
  - rewrite app_nil_r. by destruct w.
  - rewrite run_bind, Hbody by left.
    rewrite IH by (intros; apply Hbody; by right).
    simpl. by rewrite app_assoc.
Qed.

Lemma zip_fmap_right {A B C} (g : B → C) (ks : list A) (vs : list B) :
  zip ks (g <$> vs) = prod_map id g <$> zip ks vs.
Proof. revert vs. induction ks; intros [|??]; csimpl; by f_equal. Qed.

Lemma zip_nil_inv {A B} (ks : list A) (vs : list B) :
  ks ≠ [] → length ks = length vs → zip ks vs ≠ [].
Proof. by destruct ks, vs. Qed.

(** Reading the admissible variables off the frame of a point. *)
Lemma getitems_point (a names : list string) (z_vals : list Z) :
  a ⊆ names → names ≠ [] → length names = length z_vals →
  getitems (one_row_frame names (of_int <$> z_vals)) a
  = Ok (confounders_frame a names z_vals).
Proof.
  intros Hsub Hne Hlen. unfold getitems, confounders_frame, one_row_frame.
  cbn [index].
  assert (zip names (of_int <$> z_vals) ≠ []) as Hzip.
  { apply zip_nil_inv; [done | by rewrite length_fmap]. }
  destruct (zip names (of_int <$> z_vals)) as [|pair pairs]; [done|].
  clear pair pairs Hzip.
  erewrite for_each_total; [done|]. apply Forall_forall. intros v Hv.
  unfold getitem. rewrite find_column_dict_columns.
  rewrite <-list_fmap_compose, zip_fmap_right, dict_of_pairs_fmap, lookup_fmap.
  destruct (dict_of_pairs_is_Some (zip names z_vals) v) as [z Hz].
  { rewrite fst_zip by lia. by apply Hsub. }
  by rewrite (lookup_total_correct _ _ _ Hz), Hz.
Qed.

Lemma default_row_confounders_frame (a names : list string) (z_vals : list Z) :
  default_row (confounders_frame a names z_vals).
Proof.
  split; [done|]. unfold confounders_frame. cbn [series].
  apply Forall_fmap, Forall_forall. by intros.
Qed.

Lemma columns_confounders_frame (a names : list string) (z_vals : list Z) :
  columns (confounders_frame a names z_vals) = a.
Proof.
  unfold confounders_frame, columns. cbn [series]. rewrite <-list_fmap_compose.
  apply list_fmap_id.
Qed.

(** The exogenous predictors at one point: the query's causes followed by
    the point, when the query is one row labelled 0 and no admissible
    variable is a column of it. *)
Lemma exog_at_point (c a names : list string) (xq xc : DataFrame num)
    (z_vals : list Z) :
  default_row xq →
  getitems xq c = Ok xc →
  (∀ v, v ∈ a → v ∉ columns xq) →
  ∃ joined,
    join xq (confounders_frame a names z_vals) = Ok joined
    ∧ getitems joined (c ++ a) = Ok (hcat xc (confounders_frame a names z_vals)).
Proof.
  intros Hrow Hxc Hdisjoint. set (z := confounders_frame a names z_vals).
  assert (default_row z) as Hz by apply default_row_confounders_frame.
  exists (hcat xq z). split.
  { apply join_disjoint; [done..|]. unfold z.
    rewrite columns_confounders_frame. exact Hdisjoint. }
  assert (index (hcat xq z) = index z) as Hindex.
  { unfold hcat. cbn [index]. by rewrite (proj1 Hrow), (proj1 Hz). }
  apply getitems_app.
  - rewrite <-Hxc. apply getitems_ext; [done|]. intros k Hk.
    rewrite find_column_app.
    by destruct (getitems_find _ _ _ _ Hxc Hk) as [col ->].
  - transitivity (getitems z a).
    + apply getitems_ext; [done|]. intros k Hk. rewrite find_column_app.
      assert (find_column xq k = None) as ->; [|done].
      by apply find_column_None, Hdisjoint.
    + unfold z, confounders_frame, getitems. cbn [index].
      erewrite for_each_total; [done|]. apply Forall_forall. intros k Hk.
      unfold getitem. by rewrite find_column_fmap, decide_True.
Qed.

End DiscreteConfounders.

(** ** Sign of the density *)

Section Nonnegative.
Context {num : Type} `{!Number num} `{!Collaborators num} `{!IterationOrder}.
Implicit Types (X x : DataFrame num) (self : CausalEffect num) (w : world num).

Lemma run_bind_Ok {A B} (m : method num A) (f : A → method num B) w (b : B) w' :
  (m ≫= f) w = (Ok b, w') → ∃ a w1, m w = (Ok a, w1) ∧ f a w1 = (Ok b, w').
Proof.
  rewrite run_bind. destruct (m w) as [[a|err] w1]; [eauto | discriminate].
Qed.

Lemma run_lift {A} (r : res A) w (a : A) w' :
  lift r w = (Ok a, w') → r = Ok a ∧ w' = w.
Proof. unfold lift. by intros [= -> ->]. Qed.


(** A property [P] of numbers that zero has and that sums and products
    keep, that the densities the collaborators evaluate have, and that the
    quadrature of an integrand with the property has over a proper box:
    then what [pdf] returns has it.  The boxes [pdf] integrates over are
    made of the support intervals of the continuous confounders. *)
Variable P : num → Prop.
Variable proper : num * num → Prop.
Hypothesis P_zero : P zero.
Hypothesis P_add : ∀ a b, P a → P b → P (add a b).
Hypothesis P_mul : ∀ a b, P a → P b → P (mul a b).
Hypothesis kde_P : ∀ model data_predict, P (kde_pdf model data_predict).
Hypothesis ckde_P :
  ∀ model exog_predict endog_predict,
    P (ckde_pdf model exog_predict endog_predict).
Hypothesis nquad_P :
  ∀ func ranges value error,
    Forall proper ranges →
    (∀ point r, func point = Ok r → P r) →
    nquad func ranges = Ok (value, error) → P value.




End Nonnegative.

(** *** In binary64

    A number is not negative when it is a NaN, a zero or above zero.  Sums
    and products of such numbers are such numbers; a product can be NaN,
    as that of a zero and an infinity is. *)
Module Binary64Facts.
Import Binary64.
Local Open Scope float_scope.

Definition not_negative (v : float) : Prop := (v <? 0) = false.


(** The specification of a number that is not negative: no sign bit on
    an infinity or on a finite number that is not zero. *)
Definition unsigned (x : spec_float) : Prop :=
  match x with
  | S754_infinity true | S754_finite true _ _ => False
  | _ => True
  end.

Lemma not_negative_unsigned (v : float) : not_negative v ↔ unsigned (Prim2SF v).
Proof.
  unfold not_negative. rewrite FloatAxioms.ltb_spec.
  change (Prim2SF 0) with (S754_zero false).
  unfold SFltb, SFcompare, unsigned.
  destruct (Prim2SF v) as [[]|[]| |[] m e]; simpl; split; done.
Qed.





(** A number that is at least zero is not negative; NaN is not negative
    and is not at least zero. *)
Lemma at_least_zero_not_negative (v : float) : (0 <=? v) = true → not_negative v.
Proof.
  rewrite not_negative_unsigned, FloatAxioms.leb_spec.
  change (Prim2SF 0) with (S754_zero false).
  unfold SFleb, SFcompare, unsigned.
  by destruct (Prim2SF v) as [[]|[]| |[] m e].
Qed.



Section Density.
Context {collaborators : Collaborators float} `{!IterationOrder}.
#[local] Existing Instance Binary64.number.

End Density.
End Binary64Facts.

(** ** Mutual information *)

(** One step backwards through a method that returned. *)
Ltac inv_run :=
  match goal with
  | H : (_ ≫= _) _ = (Ok _, _) |- _ =>
      apply run_bind_Ok in H as (? & ? & ? & ?)
  | H : lift _ _ = (Ok _, _) |- _ => apply run_lift in H as [? ->]
  | H : get_self _ = (Ok _, _) |- _ => injection H as <- <-
  | H : set_self _ _ = (Ok _, _) |- _ => injection H as <- <-
  | H : mret _ _ = (Ok _, _) |- _ => injection H as <- <-
  end.

Section MutualInformation.
Context {num : Type} `{!Number num} `{!Collaborators num} `{!IterationOrder}.
Implicit Types (X x : DataFrame num) (self : CausalEffect num) (w : world num).

(** The object after the assignments of [biased_mutual_information]. *)
Definition after_mutual_information self (x1 x2 : string)
    (marginal : KDEMultivariate num)
    (conditional : KDEMultivariateConditional num) : CausalEffect num :=
  set_cond_integration_density conditional
    (set_integration_density marginal
       (set_x1_integration_density marginal
          (set_mi_conditional_density conditional
             (set_mi_density marginal (set_x2 x2 (set_x1 x1 self)))))).

#[local] Opaque str_join.

Lemma mutual_information_Ok X (x1 x2 : string) w (v : num) w' :
  biased_mutual_information X x1 x2 w = (Ok v, w') →
  ∃ tag1 tag2 col1 col2 s1 s2 Hx2 err Hx2givenx1 err',
    let bw := bandwidth_rule [tag1; tag2] in
    let marginal :=
      {| kde_data := AFrame (Frame (index X) [(x2, col2)]);
         kde_var_type := str_join [tag1];
         kde_bw := bw |} in
    let conditional :=
      {| ckde_endog := ASeries col2; ckde_exog := ASeries col1;
         ckde_dep_type := str_join [tag1]; ckde_indep_type := str_join [tag2];
         ckde_bw := bw |} in
    let self' := after_mutual_information w.1 x1 x2 marginal conditional in
    variable_types w.1 !! x1 = Some tag1
    ∧ variable_types w.1 !! x2 = Some tag2
    ∧ find_column X x1 = Some col1
    ∧ find_column X x2 = Some col2
    ∧ support w.1 !! x1 = Some s1
    ∧ support w.1 !! x2 = Some s2
    ∧ nquad (λ point, entropy_integration_function self' (point ++ [])) [s2]
      = Ok (Hx2, err)
    ∧ nquad (λ point, entropy_integration_function self' (point ++ [])) [s1; s2]
      = Ok (Hx2givenx1, err')
    ∧ v = sub Hx2 Hx2givenx1
    ∧ w' = (self', w.2 ++ [CallNquad EntropyIntegrationFunction [s2] [];
                           CallNquad EntropyIntegrationFunction [s1; s2] []]).
Proof.
  destruct w as [self log].
  unfold biased_mutual_information. intros Hrun.
  repeat (inv_run; cbn [fst snd] in * ).
  unfold call_nquad, logged in *. cbn [fst snd] in *.
  repeat match goal with
         | H : (_, _) = (_, _) |- _ => injection H as ? ?
         end.
  subst. simpl in *.
  unfold getitems, getitem, dict_get in *. simpl in *.
  repeat match goal with
         | H : context [match ?o with _ => _ end] |- _ =>
             destruct o eqn:?; simpl in H; try discriminate H
         end.
  simpl in *. simplify_eq.
  repeat match goal with
         | H : nquad _ _ ≫= _ = Ok _ |- _ =>
             apply bind_Ok in H as ([? ?] & ? & [= <-])
         end.
  eexists _, _, _, _, _, _, _, _, _, _. split_and!; try done.
  by rewrite <-app_assoc.
Qed.

#[local] Transparent str_join.

(** What construction builds: the causal specification, the registry, the
    Density Model Bundle, the Support Cube and the partition of the
    confounders. *)
Definition built_at_construction self :=
  (causes self, effects self, admissable_set self, conditional_density_vars self,
   variable_types self,
   (density self, conditional_density self, conditional_expectation self),
   support self,
   (discrete_variables self, discrete_Z self,
    continuous_variables self, continuous_Z self)).

(** A method that leaves alone what construction built. *)
Definition keeps_construction {A} (m : method num A) : Prop :=
  ∀ w, built_at_construction (m w).2.1 = built_at_construction w.1.

Lemma keeps_construction_read_only {A} (m : method num A) :
  read_only m → keeps_construction m.
Proof. intros Hm w. by rewrite Hm. Qed.

Lemma keeps_construction_bind {A B} (m : method num A) (f : A → method num B) :
  keeps_construction m → (∀ a, keeps_construction (f a)) →
  keeps_construction (m ≫= f).
Proof.
  intros Hm Hf w. rewrite run_bind. specialize (Hm w).
  destruct (m w) as [[a|e] w1]; simpl in *; [|done].
  by rewrite Hf.
Qed.

Lemma keeps_construction_set_self (f : CausalEffect num → CausalEffect num) :
  (∀ self, built_at_construction (f self) = built_at_construction self) →
  keeps_construction (set_self f).
Proof. intros Hf w. apply Hf. Qed.

Lemma mutual_information_keeps_construction X (x1 x2 : string) :
  keeps_construction (biased_mutual_information X x1 x2).
Proof.
  unfold biased_mutual_information, call_nquad.
  repeat first
    [ apply keeps_construction_bind; [|intros]
    | apply keeps_construction_set_self; done
    | apply keeps_construction_read_only; read_only ].
Qed.

(** C9, as the code has it.  [pdf] and [expected_value] assign no
    attribute.  [biased_mutual_information] leaves what construction built
    as it was, whether it returns or raises, and when it returns it has
    stored its arguments and its fits (made from the sample it was
    given) in seven attributes of the object, where they stay. *)
Theorem queries_and_the_object X x (v1 v2 : string) w :
  (pdf x w).2.1 = w.1
  ∧ (expected_value x w).2.1 = w.1
  ∧ built_at_construction (biased_mutual_information X v1 v2 w).2.1
    = built_at_construction w.1
  ∧ ∀ v w',
      biased_mutual_information X v1 v2 w = (Ok v, w') →
      ∃ marginal conditional,
        kde_data marginal
        = AFrame (Frame (index X) [(v2, default [] (find_column X v2))])
        ∧ ckde_endog conditional = ASeries (default [] (find_column X v2))
        ∧ ckde_exog conditional = ASeries (default [] (find_column X v1))
        ∧ x1 w'.1 = Some v1
        ∧ x2 w'.1 = Some v2
        ∧ mi_density w'.1 = Some marginal
        ∧ mi_conditional_density w'.1 = Some conditional
        ∧ x1_integration_density w'.1 = Some marginal
        ∧ integration_density w'.1 = Some marginal
        ∧ cond_integration_density w'.1 = Some conditional.
Proof.
  split_and!.
  - apply pdf_read_only.
  - apply expected_value_read_only.
  - apply mutual_information_keeps_construction.
  - intros v w' Hrun.
    apply mutual_information_Ok in Hrun
      as (tag1 & tag2 & col1 & col2 & s1 & s2 & h & err & h' & err' & Hrun).
    cbv zeta in Hrun.
    destruct Hrun as (_ & _ & Hcol1 & Hcol2 & _ & _ & _ & _ & _ & ->).
    rewrite Hcol1, Hcol2. eexists _, _. split_and!.
    6: reflexivity. 6: reflexivity. all: reflexivity.
Qed.
End MutualInformation.

(** ** Bandwidth rules, the entropy integrand and failing constructions *)

Section Rules.
Context {num : Type} `{!Number num} `{!Collaborators num} `{!IterationOrder}.
Implicit Types (X x : DataFrame num) (self : CausalEffect num) (w : world num).

(** C4, as the code has it.  The constructor derives one rule from the
    tags of the whole registry and gives it to the marginal and to the
    conditional density; the regression always gets ['cv_ls'].  A call of
    [biased_mutual_information] derives one rule from the tags of its two
    variables and gives it to its three fits. *)
Theorem bandwidth_rules X (c e a : list string) vt (exp d : bool) self :
  __init__ X c e a vt exp d = Ok self →
  let rule := bandwidth_rule (dict_values (variable_types self)) in
  ckde_bw (conditional_density self) = rule
  ∧ (∀ model, density self = Some model → kde_bw model = rule)
  ∧ (∀ model, conditional_expectation self = Some model → reg_bw model = "cv_ls")
  ∧ ∀ X' (v1 v2 : string) log value w',
      biased_mutual_information X' v1 v2 (self, log) = (Ok value, w') →
      ∃ tag1 tag2 marginal conditional marginal',
        variable_types self !! v1 = Some tag1
        ∧ variable_types self !! v2 = Some tag2
        ∧ mi_density w'.1 = Some marginal
        ∧ mi_conditional_density w'.1 = Some conditional
        ∧ x1_integration_density w'.1 = Some marginal'
        ∧ kde_bw marginal = bandwidth_rule [tag1; tag2]
        ∧ ckde_bw conditional = bandwidth_rule [tag1; tag2]
        ∧ kde_bw marginal' = bandwidth_rule [tag1; tag2].
Proof.
  intros Hinit rule. split_and!.
  - apply init_Ok in Hinit
      as (types & ? & ? & ? & ? & ? & ? & ? & Hbuilt).
    cbv zeta in Hbuilt. by destruct Hbuilt as (_ & _ & _ & _ & _ & _ & _ & _ & _ & ->).
  - apply init_Ok in Hinit
      as (types & ? & ? & ? & ? & ? & ? & ? & Hbuilt).
    cbv zeta in Hbuilt. destruct Hbuilt as (_ & _ & _ & _ & _ & _ & _ & _ & _ & ->).
    subst rule. simpl. intros model. case_bool_decide; [|done]. by intros [= <-].
  - apply init_Ok in Hinit
      as (types & ? & ? & ? & ? & ? & ? & ? & Hbuilt).
    cbv zeta in Hbuilt. destruct Hbuilt as (_ & _ & _ & _ & _ & _ & _ & _ & _ & ->).
    simpl. intros model. destruct exp; [|done]. by intros [= <-].
  - intros X' v1 v2 log value w' Hrun.
    apply mutual_information_Ok in Hrun
      as (tag1 & tag2 & col1 & col2 & s1 & s2 & h & err & h' & err' & Hrun).
    cbv zeta in Hrun.
    destruct Hrun as (Htag1 & Htag2 & _ & _ & _ & _ & _ & _ & _ & ->).
    eexists tag1, tag2, _, _, _. split_and!; [done|done|reflexivity..].
Qed.

(** The marginal factor of the conditional entropy: the attribute named
    after [x1] holds a density fitted on the column of [x2] and typed with
    the tag of [x1]. *)
Lemma mutual_information_marginal_factor X (v1 v2 : string) w (value : num) w' :
  biased_mutual_information X v1 v2 w = (Ok value, w') →
  ∃ tag1 col2 bw,
    variable_types w.1 !! v1 = Some tag1
    ∧ find_column X v2 = Some col2
    ∧ x1_integration_density w'.1
      = Some {| kde_data := AFrame (Frame (index X) [(v2, col2)]);
                kde_var_type := str_join [tag1]; kde_bw := bw |}.
Proof.
  intros Hrun.
  apply mutual_information_Ok in Hrun
    as (tag1 & tag2 & col1 & col2 & s1 & s2 & h & err & h' & err' & Hrun).
  cbv zeta in Hrun.
  destruct Hrun as (Htag1 & _ & _ & Hcol2 & _ & _ & _ & _ & _ & ->).
  by eexists tag1, col2, _.
Qed.

(** C8, as the code has it.  The entropy integrand applies the logarithm
    to the density without a guard: on one coordinate it returns
    [(-p) * log p] for the marginal density [p] there, on two coordinates
    [((-m) * p) * log p] for the conditional density [p] and the marginal
    factor [m], whatever [p] is.  It raises nothing of its own for one or
    two coordinates, and the arity error for any other number. *)
Theorem entropy_integrand_unguarded self :
  (∀ v name model,
     x2 self = Some name → integration_density self = Some model →
     entropy_integration_function self [v]
     = Ok (let p := kde_pdf model (ASeries [v]) in mul (neg p) (log p)))
  ∧ (∀ u v name1 name2 model marginal,
       x1 self = Some name1 → x2 self = Some name2 → name1 ≠ name2 →
       cond_integration_density self = Some model →
       x1_integration_density self = Some marginal →
       entropy_integration_function self [u; v]
       = Ok (let p := ckde_pdf model (ASeries [u]) (ASeries [v]) in
             mul (mul (neg (kde_pdf marginal (ASeries [u]))) p) (log p)))
  ∧ (∀ args,
       length args ≠ 1%nat → length args ≠ 2%nat →
       entropy_integration_function self args
       = Raise (Exception "Too few args in entropy integration")).
Proof.
  split_and!.
  - intros v name model Hname Hmodel. unfold entropy_integration_function.
    rewrite Hname, Hmodel. cbn -[one_row_frame].
    unfold getitem, one_row_frame. rewrite find_column_dict_columns.
    unfold dict_of_pairs. cbn. by rewrite lookup_insert_eq.
  - intros u v name1 name2 model marginal Hname1 Hname2 Hne Hmodel Hmarginal.
    unfold entropy_integration_function.
    rewrite Hname1, Hname2, Hmodel, Hmarginal. cbn -[one_row_frame].
    unfold getitem, one_row_frame. rewrite !find_column_dict_columns.
    unfold dict_of_pairs. cbn.
    rewrite lookup_insert_eq, lookup_insert_ne, lookup_insert_eq by done.
    done.
  - intros [|u [|v [|t args]]] H1 H2; try done.
Qed.

Lemma tags_Raise (types : gmap string string) (ks : list string) (err : exn) :
  for_each (dict_get types) ks = Raise err →
  ∃ k, k ∈ ks ∧ types !! k = None ∧ err = KeyError k.
Proof.
  intros (k & Hk & Hget)%for_each_Raise_inv. exists k. unfold dict_get in Hget.
  destruct (types !! k); [discriminate|]. by injection Hget as <-.
Qed.

Lemma tags_Ok (types : gmap string string) (ks : list string) tags (k : string) :
  for_each (dict_get types) ks = Ok tags → k ∈ ks → is_Some (types !! k).
Proof.
  intros Htags%for_each_Forall2 [i Hi]%list_elem_of_lookup.
  destruct (Forall2_lookup_l _ _ _ _ _ Htags Hi) as (t & _ & Ht).
  unfold dict_get in Ht. by destruct (types !! k).
Qed.

(** C6, as the code has it.  A variable of causes, effects or the
    admissible set that is not a column of the sample, or has no tag in the
    mapping of types, or a mapping that is left out, makes the constructor
    raise, and the exception is that of the lookup that failed:
    [AttributeError] when the mapping is left out, [KeyError] naming a
    variable of the three roles that has no tag or no column, and, when the
    mapping is empty and the columns are there, [UnboundLocalError] for a
    list of tags that was never bound.  No estimator is returned.  Nothing
    looks at whether the three roles overlap. *)
Theorem construction_needs_every_variable X (c e a : list string) vt
    (exp d : bool) (v : string) :
  v ∈ e ++ c ++ a →
  v ∉ columns X ∨ (∀ types, vt = Some types → types !! v = None) →
  (vt = None ∧ __init__ X c e a vt exp d = Raise (AttributeError "values"))
  ∨ (∃ types name,
       vt = Some types ∧ name ∈ e ++ c ++ a
       ∧ (name ∉ columns X ∨ types !! name = None)
       ∧ __init__ X c e a vt exp d = Raise (KeyError name))
  ∨ (vt = Some ∅
     ∧ ∃ name, name ∈ ["density_types"; "dep_type"]
               ∧ __init__ X c e a vt exp d = Raise (UnboundLocalError name)).
Proof.
  intros Hv Hmissing. destruct vt as [types|]; [right | by left].
  assert (∀ k, k ∈ a → k ∈ e ++ c ++ a) as Hin_a.
  { intros k Hk. rewrite !elem_of_app. auto. }
  assert (∀ k, k ∈ e → k ∈ e ++ c ++ a) as Hin_e.
  { intros k Hk. rewrite !elem_of_app. auto. }
  assert (∀ k, k ∈ c ++ a → k ∈ e ++ c ++ a) as Hin_ca.
  { intros k Hk. rewrite elem_of_app. auto. }
  unfold __init__. destruct (decide (types = ∅)) as [->|Hne].
  - rewrite (bool_decide_eq_false_2 (∅ ≠@{gmap string string} ∅))
      by (intros Hnot; by apply Hnot).
    cbn [mbind res_bind fmap option_fmap option_map local].
    case_bool_decide.
    + destruct (getitems X a) as [data|err] eqn:Hdata; simpl.
      * right. split; [done|]. exists "density_types". split; [left | done].
      * apply getitems_Raise in Hdata as (k & -> & Hk & Hmiss).
        left. exists ∅, k. split_and!; auto.
    + simpl. destruct (getitems X e) as [endog|err] eqn:Hendog; simpl.
      * destruct (getitems X (c ++ a)) as [exog|err] eqn:Hexog; simpl.
        -- right. split; [done|]. exists "dep_type".
           split; [right; left | done].
        -- apply getitems_Raise in Hexog as (k & -> & Hk & Hmiss).
           left. exists ∅, k. split_and!; auto.
      * apply getitems_Raise in Hendog as (k & -> & Hk & Hmiss).
        left. exists ∅, k. split_and!; auto.
  - left. exists types. rewrite (bool_decide_eq_true_2 (types ≠ ∅)) by done.
    destruct (for_each (dict_get types) e) as [dep|err] eqn:Hdep;
      cbn [mbind res_bind].
    2:{ apply tags_Raise in Hdep as (k & Hk & Hnone & ->).
        exists k. split_and!; auto. }
    destruct (for_each (dict_get types) (c ++ a)) as [indep|err] eqn:Hindep;
      cbn [mbind res_bind].
    2:{ apply tags_Raise in Hindep as (k & Hk & Hnone & ->).
        exists k. split_and!; auto. }
    destruct (for_each (dict_get types) a) as [dens|err] eqn:Hdens;
      cbn [mbind res_bind].
    2:{ apply tags_Raise in Hdens as (k & Hk & Hnone & ->).
        exists k. split_and!; auto. }
    assert (v ∉ columns X) as Hcolumn.
    { destruct Hmissing as [|Htag]; [done|]. specialize (Htag types eq_refl).
      apply elem_of_app in Hv as [Hv|Hv].
      - destruct (tags_Ok _ _ _ _ Hdep Hv) as [t Ht]. congruence.
      - destruct (tags_Ok _ _ _ _ Hindep Hv) as [t Ht]. congruence. }
    cbn [fmap option_fmap option_map local compose fst snd].
    assert (∀ ks, (∃ Y, getitems X ks = Ok Y) → v ∉ ks) as Hread.
    { intros ks [Y HY] Hk. destruct (getitems_find _ _ _ _ HY Hk) as [col Hcol].
      apply find_column_None in Hcolumn. congruence. }
    case_bool_decide.
    + destruct (getitems X a) as [data|err] eqn:Hdata; cbn [mbind res_bind].
      2:{ apply getitems_Raise in Hdata as (k & -> & Hk & Hmiss).
          exists k. split_and!; auto. }
      destruct (getitems X e) as [endog|err] eqn:Hendog; cbn [mbind res_bind].
      2:{ apply getitems_Raise in Hendog as (k & -> & Hk & Hmiss).
          exists k. split_and!; auto. }
      destruct (getitems X (c ++ a)) as [exog|err] eqn:Hexog; cbn [mbind res_bind].
      2:{ apply getitems_Raise in Hexog as (k & -> & Hk & Hmiss).
          exists k. split_and!; auto. }
      exfalso. apply elem_of_app in Hv as [Hv|Hv].
      * by apply (Hread e); eauto.
      * by apply (Hread (c ++ a)); eauto.
    + cbn [mbind res_bind].
      destruct (getitems X e) as [endog|err] eqn:Hendog; cbn [mbind res_bind].
      2:{ apply getitems_Raise in Hendog as (k & -> & Hk & Hmiss).
          exists k. split_and!; auto. }
      destruct (getitems X (c ++ a)) as [exog|err] eqn:Hexog; cbn [mbind res_bind].
      2:{ apply getitems_Raise in Hexog as (k & -> & Hk & Hmiss).
          exists k. split_and!; auto. }
      exfalso. apply elem_of_app in Hv as [Hv|Hv].
      * by apply (Hread e); eauto.
      * by apply (Hread (c ++ a)); eauto.
Qed.
End Rules.

(** * Worked examples *)

(** The estimator a construction returned; [blank] stands in when it raised. *)
Definition blank {num} : CausalEffect num :=
  {| causes := []; effects := []; admissable_set := [];
     conditional_density_vars := []; variable_types := ∅; density := None;
     conditional_density :=
       {| ckde_endog := AFrame (Frame [] []); ckde_exog := AFrame (Frame [] []);
          ckde_dep_type := ""; ckde_indep_type := ""; ckde_bw := "" |};
     conditional_expectation := None; support := ∅;
     discrete_variables := []; discrete_Z := [];
     continuous_variables := []; continuous_Z := [];
     x1 := None; x2 := None; mi_density := None;
     mi_conditional_density := None; x1_integration_density := None;
     integration_density := None; cond_integration_density := None |}.

Definition returned {num} (r : res (CausalEffect num)) : CausalEffect num :=
  match r with
  | Ok self => self
  | Raise _ => blank
  end.

(** ** With exact arithmetic

    A sample of three rows over a cause [c], an effect [d], an ordered
    confounder [z] and a continuous confounder [w]. *)

Module ExactExamples.
Import Exact.
#[local] Existing Instance key_order.
#[local] Existing Instance Exact.collaborators.
#[local] Instance exact_number : Number exact := Exact.number (λ q, q - 1)%Q.

Definition sample : DataFrame exact :=
  new_frame [("c", Rational <$> [1; 2; 3]%Q); ("d", Rational <$> [4; 5; 9]%Q);
             ("z", Rational <$> [0; 1; 1]%Q);
             ("w", Rational <$> [1 # 2; 3 # 2; 2]%Q)].

Definition types : gmap string string :=
  <["c" := "c"]> (<["d" := "c"]> (<["z" := "o"]> (<["w" := "c"]> ∅))).

(** Two queries of one row with the default label, and the row of the first
    as it is when taken out of a larger frame: it has kept its label, 1. *)
Definition query : DataFrame exact :=
  new_frame [("c", [Rational 2]); ("d", [Rational 5]); ("note", [Rational 7])].

Lemma query_default_row : default_row query.
Proof. split; [reflexivity | repeat constructor]. Qed.

(** The estimators without confounder, with the discrete confounder and with
    both confounders, regression included. *)
Definition plain : CausalEffect exact :=
  Eval vm_compute in
    returned (__init__ sample ["c"] ["d"] [] (Some types) true true).
Definition discrete : CausalEffect exact :=
  Eval vm_compute in
    returned (__init__ sample ["c"] ["d"] ["z"] (Some types) true true).
Definition mixed : CausalEffect exact :=
  Eval vm_compute in
    returned (__init__ sample ["c"] ["d"] ["z"; "w"] (Some types) true true).

Lemma plain_constructed :
  __init__ sample ["c"] ["d"] [] (Some types) true true = Ok plain.
Proof. vm_compute. reflexivity. Qed.

Lemma discrete_constructed :
  __init__ sample ["c"] ["d"] ["z"] (Some types) true true = Ok discrete.
Proof. vm_compute. reflexivity. Qed.

Lemma mixed_constructed :
  __init__ sample ["c"] ["d"] ["z"; "w"] (Some types) true true = Ok mixed.
Proof. vm_compute. reflexivity. Qed.



Lemma no_admissible_set_witness :
  pdf query (plain, [])
  = (Ok (Rational (1 # 30)),
     (plain, [CallCkdePdf (conditional_density plain)
                          (AFrame (new_frame [("c", [Rational 2])]))
                          (AFrame (new_frame [("d", [Rational 5])]))]))
  ∧ ∃ model,
      conditional_expectation plain = Some model
      ∧ expected_value query (plain, [])
        = (Ok (Rational 2),
           (plain, [CallRegFit model (AFrame (new_frame [("c", [Rational 2])]))])).
Proof.
  destruct (no_admissible_set sample ["c"] ["d"] (Some types) true true plain
              [] query (new_frame [("c", [Rational 2])]) plain_constructed eq_refl)
    as [Hpdf Hexp].
  split.
  - rewrite (Hpdf (new_frame [("d", [Rational 5])]) eq_refl).
    vm_compute. reflexivity.
  - destruct (Hexp eq_refl) as (model & Hmodel & Hvalue).
    exists model. split; [done|]. rewrite Hvalue.
    vm_compute in Hmodel. injection Hmodel as <-. vm_compute. reflexivity.
Defined.

Lemma support_cube_entry_witness :
  support mixed !! "c" = Some (Rational (-4), Rational 8)
  ∧ support mixed !! "z" = Some (Rational 0, Rational 1).
Proof.
  assert (NoDup (["d"] ++ ["c"] ++ ["z"; "w"])) as Hnd by compute_done.
  split.
  - destruct (support_cube_entry sample ["c"] ["d"] ["z"; "w"] (Some types)
                true true mixed 1 "c" mixed_constructed Hnd eq_refl)
      as (column & tag & Hcolumn & Htag & Hcontinuous & _).
    vm_compute in Hcolumn, Htag. injection Hcolumn as <-. injection Htag as <-.
    destruct (Hcontinuous eq_refl) as (bw & Hbw & ->).
    vm_compute in Hbw. injection Hbw as <-. vm_compute. reflexivity.
  - destruct (support_cube_entry sample ["c"] ["d"] ["z"; "w"] (Some types)
                true true mixed 2 "z" mixed_constructed Hnd eq_refl)
      as (column & tag & Hcolumn & Htag & _ & Hother).
    vm_compute in Hcolumn, Htag. injection Hcolumn as <-. injection Htag as <-.
    rewrite Hother by done. vm_compute. reflexivity.
Defined.



Lemma bandwidth_rules_witness :
  ckde_bw (conditional_density mixed) = "normal_reference"
  ∧ kde_bw <$> density mixed = Some "normal_reference"
  ∧ reg_bw <$> conditional_expectation mixed = Some "cv_ls".
Proof.
  destruct (bandwidth_rules sample ["c"] ["d"] ["z"; "w"] (Some types) true true
              mixed mixed_constructed) as (Hconditional & Hdensity & Hreg & _).
  split_and!.
  - rewrite Hconditional. vm_compute. reflexivity.
  - destruct (density mixed) as [model|] eqn:Hmodel; [|by vm_compute in Hmodel].
    simpl. rewrite (Hdensity model eq_refl). vm_compute. reflexivity.
  - destruct (conditional_expectation mixed) as [model|] eqn:Hmodel;
      [|by vm_compute in Hmodel].
    simpl. by rewrite (Hreg model eq_refl).
Defined.

(** The registry tags a continuous variable [b] that enters no model; the
    variables of the model are all ordered. *)
Definition registry : gmap string string :=
  <["c" := "o"]> (<["d" := "o"]> (<["b" := "c"]> ∅)).

Lemma bandwidth_rule_reads_the_whole_registry :
  ∃ self tags,
    __init__ sample ["c"] ["d"] [] (Some registry) true true = Ok self
    ∧ for_each (dict_get registry) (["d"] ++ ["c"]) = Ok tags
    ∧ ckde_bw (conditional_density self) ≠ bandwidth_rule tags.
Proof.
  eexists _, _. split_and!; [vm_compute; reflexivity..|].
  vm_compute. discriminate.
Qed.

Lemma construction_needs_every_variable_witness :
  __init__ sample ["b"] ["d"] ["z"] (Some types) true true = Raise (KeyError "b").
Proof.
  destruct (construction_needs_every_variable sample ["b"] ["d"] ["z"]
              (Some types) true true "b")
    as [[Hnone _]|[(types' & name & _ & _ & _ & Hraise)|[Hempty _]]].
  - compute_done.
  - left. compute_done.
  - discriminate Hnone.
  - rewrite Hraise. vm_compute in Hraise. by injection Hraise as <-.
  - apply (f_equal (λ o : option (gmap string string), o ≫= (.!! "c")))
      in Hempty.
    vm_compute in Hempty. discriminate Hempty.
Defined.

(** One variable in all three roles is accepted; a variable that the sample
    and the mapping do not have is refused by the lookup of its tag. *)
Lemma overlapping_roles_are_accepted :
  (∃ self, __init__ sample ["c"] ["c"] ["c"] (Some types) true true = Ok self)
  ∧ __init__ sample ["b"] ["d"] ["z"] (Some types) true true = Raise (KeyError "b").
Proof. split; [eexists|]; vm_compute; reflexivity. Qed.
End ExactExamples.

(** ** With binary64 arithmetic

    A sample of three rows over a continuous variable [a] and an ordered
    variable [b]; every number is a binary64 value. *)

Module Binary64Examples.
#[local] Existing Instance key_order.
#[local] Existing Instance Binary64.number.
#[local] Existing Instance Binary64.collaborators.

Definition sample : DataFrame float :=
  new_frame [("a", [0.5; 1.5; 3]%float); ("b", [0.25; 0.5; 0.75]%float)].

Definition types : gmap string string := <["a" := "c"]> (<["b" := "o"]> ∅).

Definition estimator : CausalEffect float :=
  Eval vm_compute in
    returned (__init__ sample ["a"] ["b"] [] (Some types) false true).

Lemma estimator_constructed :
  __init__ sample ["a"] ["b"] [] (Some types) false true = Ok estimator.
Proof. vm_compute. reflexivity. Qed.

(** The object after [biased_mutual_information(X, 'a', 'b')]. *)
Definition informed : CausalEffect float :=
  (biased_mutual_information sample "a" "b" (estimator, [])).2.1.

(** C7 at the failing input.  The call returns; the attribute
    [x1_integration_density], which the integrand evaluates at the
    coordinate of [x1 = a], holds a density fitted on the column of
    [x2 = b]; the densities of [b] carry the tag of [a], and the conditional
    density types [b] with the tag of [a] and [a] with the tag of [b]. *)
Theorem mutual_information_fits_the_wrong_column :
  types !! "a" = Some "c"
  ∧ types !! "b" = Some "o"
  ∧ (biased_mutual_information sample "a" "b" (estimator, [])).1 = Ok nan
  ∧ x1 informed = Some "a"
  ∧ x1_integration_density informed
    = Some {| kde_data := AFrame (new_frame [("b", [0.25; 0.5; 0.75]%float)]);
              kde_var_type := "c"; kde_bw := "normal_reference" |}
  ∧ mi_density informed
    = Some {| kde_data := AFrame (new_frame [("b", [0.25; 0.5; 0.75]%float)]);
              kde_var_type := "c"; kde_bw := "normal_reference" |}
  ∧ mi_conditional_density informed
    = Some {| ckde_endog := ASeries [0.25; 0.5; 0.75]%float;
              ckde_exog := ASeries [0.5; 1.5; 3]%float;
              ckde_dep_type := "c"; ckde_indep_type := "o";
              ckde_bw := "normal_reference" |}.
Proof. split_and!; vm_compute; reflexivity. Qed.

Lemma zero_density_yields_nan :
  ∃ model,
    integration_density informed = Some model
    ∧ kde_pdf model (ASeries [2%float]) = zero
    ∧ entropy_integration_function informed [2%float] = Ok nan
    ∧ entropy_integration_function informed [2%float] ≠ Ok zero
    ∧ (biased_mutual_information sample "a" "b" (estimator, [])).1 = Ok nan.
Proof.
  eexists. split_and!; try (vm_compute; reflexivity).
  intros Heq.
  apply (f_equal (λ r, match r with Ok v => is_nan v | Raise _ => false end)) in Heq.
  vm_compute in Heq. discriminate Heq.
Qed.

Lemma entropy_integrand_unguarded_witness :
  entropy_integration_function informed [0.5%float]
  = Ok (mul (neg 0.5%float) (log 0.5%float))
  ∧ entropy_integration_function informed [0.75; 0.5]%float
    = Ok (mul (mul (neg 0.5) 0.25) (log 0.25))%float
  ∧ entropy_integration_function informed []
    = Raise (Exception "Too few args in entropy integration").
Proof.
  destruct (entropy_integrand_unguarded informed) as (Hone & Htwo & Harity).
  split_and!.
  - erewrite Hone by (vm_compute; reflexivity). vm_compute. reflexivity.
  - erewrite (Htwo _ _ "a" "b")
      by first [done | vm_compute; reflexivity]. vm_compute. reflexivity.
  - by apply Harity.
Defined.

Lemma mutual_information_assigns_attributes :
  (biased_mutual_information sample "a" "b" (estimator, [])).2.1 ≠ estimator.
Proof.
  intros Heq. apply (f_equal x1) in Heq. vm_compute in Heq. discriminate Heq.
Qed.

Lemma queries_and_the_object_witness :
  (pdf (new_frame [("a", [1%float]); ("b", [0.5%float])]) (estimator, [])).2.1 = estimator
  ∧ built_at_construction informed = built_at_construction estimator
  ∧ ∃ marginal,
      mi_density informed = Some marginal
      ∧ kde_data marginal = AFrame (new_frame [("b", [0.25; 0.5; 0.75]%float)]).
Proof.
  destruct (queries_and_the_object sample (new_frame [("a", [1%float]); ("b", [0.5%float])])
              "a" "b" (estimator, [])) as (Hpdf & _ & Hbuilt & Hfits).
  split_and!; [exact Hpdf | exact Hbuilt |].
  destruct (Hfits nan (biased_mutual_information sample "a" "b" (estimator, [])).2)
    as (marginal & conditional & Hdata & _ & _ & _ & _ & Hmarginal & _).
  { vm_compute. reflexivity. }
  exists marginal. split; [exact Hmarginal|]. rewrite Hdata. reflexivity.
Defined.
End Binary64Examples.

(** ** The sign of the density in binary64 *)

Module SignFacts.
Import Binary64 Binary64Facts.
Local Open Scope float_scope.




End SignFacts.

Module SignExamples.
Import Binary64 Binary64Facts SignFacts.
#[local] Existing Instance key_order.
#[local] Existing Instance Binary64.number.
Local Open Scope float_scope.

(** A sample of three rows over a cause [a], an effect [b], an ordered
    confounder [z] and a continuous confounder [w]. *)
Definition sample : DataFrame float :=
  new_frame [("a", [0.5; 1.5; 3]); ("b", [0.25; 0.5; 0.75]);
             ("z", [0; 1; 1]); ("w", [-0.5; 0; 1])].

Definition types : gmap string string :=
  <["a" := "c"]> (<["b" := "c"]> (<["z" := "o"]> (<["w" := "c"]> ∅))).

Definition query : DataFrame float := new_frame [("a", [1]); ("b", [0.5])].

Section Kernels.
#[local] Existing Instance Binary64.collaborators.



End Kernels.

(** Collaborators that honour what C5 asks of them: a marginal density
    that is zero, a conditional density that is infinite, and a quadrature
    that answers the midpoint rule when that is not negative and zero
    otherwise. *)
Definition degenerate : Collaborators float := {|
  kde_pdf := λ _ _, 0;
  ckde_pdf := λ _ _ _, infinity;
  ckde_fitted_bw := λ model,
    replicate (width (ckde_endog model) + width (ckde_exog model)) 0.5;
  reg_fit := λ _ _, (0, 0);
  nquad := λ func ranges,
    r ← midpoint_rule func ranges;
    Ok (if 0 <=? r.1 then r.1 else 0, 0);
|}.

Section Degenerate.
#[local] Existing Instance degenerate.

End Degenerate.
End SignExamples.

(** * Further properties of the estimator *)

(** ** Failing lookups *)

Section Further.
Context {num : Type} `{!Number num} `{!Collaborators num} `{!IterationOrder}.
Implicit Types (X x : DataFrame num) (self : CausalEffect num) (w : world num).

(** ** Construction *)

(** The constructor cannot do without the mapping of types.  When it is left
    out the registry is to be inferred, the inference is a stub, and the
    constructor raises [AttributeError] on the registry it did not get; with
    an empty mapping the tag lists are never bound and it raises
    [UnboundLocalError], unless a missing column has raised [KeyError]
    before. *)
Theorem construction_needs_variable_types X (c e a : list string) (exp d : bool) :
  __init__ X c e a None exp d = Raise (AttributeError "values")
  ∧ ∃ name,
      __init__ X c e a (Some ∅) exp d = Raise (KeyError name)
      ∨ __init__ X c e a (Some ∅) exp d = Raise (UnboundLocalError name).
Proof.
  split; [done|].
  unfold __init__.
  rewrite (bool_decide_eq_false_2 (∅ ≠@{gmap string string} ∅))
    by (intros Hne; by apply Hne).
  cbn [mbind res_bind fmap option_fmap option_map local].
  case_bool_decide.
  - destruct (getitems X a) as [data|err] eqn:Hdata; simpl.
    + exists "density_types". by right.
    + apply getitems_Raise in Hdata as (k & -> & _). exists k. by left.
  - simpl. destruct (getitems X e) as [endog|err] eqn:Hendog; simpl.
    + destruct (getitems X (c ++ a)) as [exog|err] eqn:Hexog; simpl.
      * exists "dep_type". by right.
      * apply getitems_Raise in Hexog as (k & -> & _). exists k. by left.
    + apply getitems_Raise in Hendog as (k & -> & _). exists k. by left.
Qed.

(** The confounders are partitioned: [discrete_Z] and [continuous_Z] list
    admissible variables without repetition, no variable is in both, and an
    admissible variable tagged ['c'], ['o'] or ['u'] is in one of them. *)
Theorem confounders_are_partitioned X (c e a : list string) vt (exp d : bool) self :
  __init__ X c e a vt exp d = Ok self →
  NoDup (discrete_Z self) ∧ NoDup (continuous_Z self)
  ∧ (∀ v, v ∈ discrete_Z self → v ∈ a ∧ v ∉ continuous_Z self)
  ∧ (∀ v, v ∈ continuous_Z self → v ∈ a ∧ v ∉ discrete_Z self)
  ∧ (∀ v tag, v ∈ a → variable_types self !! v = Some tag →
       tag ∈ ["c"; "o"; "u"] → v ∈ discrete_Z self ∨ v ∈ continuous_Z self).
Proof.
  intros (_ & _ & _ & _ & _ & HdZ & HcZ & HndD & HndC & _)%constructed.
  assert ("c" ∉ ["o"; "u"]) as Hno by compute_done.
  split_and!; [done..| | |].
  - intros v (Ha & tag & Htag & Hou)%HdZ. split; [done|].
    intros [_ Hc]%HcZ. rewrite Hc in Htag. by injection Htag as <-.
  - intros v [Ha Hc]%HcZ. split; [done|].
    intros (_ & tag & Htag & Hou)%HdZ. rewrite Hc in Htag. by injection Htag as <-.
  - intros v tag Ha Htag Hcou.
    apply elem_of_cons in Hcou as [->|Hou].
    + right. by apply HcZ.
    + left. apply HdZ. eauto.
Qed.

Lemma get_support_keys (e cdv : list string) (types : gmap string string)
    (model : KDEMultivariateConditional num) X
    (sup : gmap string (num * num)) (v : string) :
  __get_support e cdv types model X = Ok sup → v ∉ e ++ cdv → sup !! v = None.
Proof.
  unfold __get_support. intros (pairs & _ & Hfold)%bind_Ok Hout.
  apply (for_fold_insert
           (support_entry types (dict_of_pairs pairs)
              (dict_of_pairs (zip (e ++ cdv) (ckde_fitted_bw model))))
           _ _ _ _ v) in Hfold as [_ Hkeep].
  - by rewrite (Hkeep Hout), lookup_empty.
  - intros acc k. unfold support_entry.
    destruct (dict_get types k) as [tag|]; simpl; [|done].
    destruct (dict_get (dict_of_pairs pairs) k) as [s|]; simpl;
      case_bool_decide; simpl; try done.
    by destruct (dict_get _ k).
Qed.

Lemma support_key_modelled X (c e a : list string) vt (exp d : bool) self
    (v : string) :
  __init__ X c e a vt exp d = Ok self →
  is_Some (support self !! v) → v ∈ e ++ c ++ a.
Proof.
  intros Hinit Hsome. destruct (decide (v ∈ e ++ c ++ a)) as [|Hout]; [done|].
  apply init_Ok in Hinit
    as (types & ? & ? & ? & ? & ? & ? & sup & Hbuilt).
  cbv zeta in Hbuilt.
  destruct Hbuilt as (_ & _ & _ & _ & _ & _ & _ & _ & Hsup & ->).
  cbn [support] in Hsome.
  rewrite (get_support_keys _ _ _ _ _ _ _ Hsup Hout) in Hsome.
  by destruct Hsome.
Qed.

(** The support cube has an entry for exactly the variables of effects,
    causes and the admissible set. *)
Theorem support_cube_keys X (c e a : list string) vt (exp d : bool) self (v : string) :
  __init__ X c e a vt exp d = Ok self →
  is_Some (support self !! v) ↔ v ∈ e ++ c ++ a.
Proof.
  intros Hinit. split.
  - exact (support_key_modelled X c e a vt exp d self v Hinit).
  - apply constructed in Hinit
      as (_ & _ & _ & _ & _ & _ & _ & _ & _ & _ & _ & _ & Hsup).
    apply Hsup.
Qed.

(** ** Queries that fail *)

(** A query without the column of a cause or an effect makes [pdf] raise
    [KeyError] for a missing label before it calls any collaborator;
    [expected_value] needs the columns of the causes only. *)
Theorem queries_need_their_columns self (log : list (call num)) x (k : string) :
  k ∉ columns x →
  (k ∈ causes self ++ effects self →
   ∃ label,
     (label ∉ columns x)
     ∧ pdf x (self, log) = (Raise (KeyError label), (self, log)))
  ∧ (k ∈ causes self →
     ∃ label,
       (label ∉ columns x)
       ∧ expected_value x (self, log) = (Raise (KeyError label), (self, log))).
Proof.
  intros Hmiss. split; intros Hk.
  - destruct (getitems_missing x _ k Hk Hmiss) as [err Herr].
    destruct (getitems_Raise _ _ _ Herr) as (k' & -> & _ & Hk').
    exists k'. split; [done|].
    unfold pdf. rewrite run_get_self. cbn [fst]. by rewrite Herr.
  - destruct (getitems_missing x _ k Hk Hmiss) as [err Herr].
    destruct (getitems_Raise _ _ _ Herr) as (k' & -> & _ & Hk').
    exists k'. split; [done|].
    unfold expected_value. rewrite run_get_self. cbn [fst]. by rewrite Herr.
Qed.

(** The regression is fitted on request only.  On an estimator built
    without it and without confounders, [expected_value] raises
    [AttributeError] and calls nothing. *)
Theorem expected_value_needs_the_regression X (c e : list string) vt (d : bool)
    self (log : list (call num)) x :
  __init__ X c e [] vt false d = Ok self →
  (∀ k, k ∈ c → k ∈ columns x) →
  expected_value x (self, log)
  = (Raise (AttributeError "conditional_expectation"), (self, log)).
Proof.
  intros Hinit Hcolumns. destruct (getitems_total x c Hcolumns) as [xc Hxc].
  pose proof (constructed _ _ _ _ _ _ _ _ Hinit)
    as (_ & Hc & _ & _ & _ & HdZ & HcZ & _).
  assert (discrete_Z self = []) as HdZ'.
  { apply elem_of_nil_inv. intros k [[]%elem_of_nil _]%HdZ. }
  assert (continuous_Z self = []) as HcZ'.
  { apply elem_of_nil_inv. intros k [[]%elem_of_nil _]%HcZ. }
  assert (conditional_expectation self = None) as Hnone.
  { apply init_Ok in Hinit as (? & ? & ? & ? & ? & ? & ? & ? & Hbuilt).
    cbv zeta in Hbuilt. by destruct Hbuilt as (_ & _ & _ & _ & _ & _ & _ & _ & _ & ->). }
  unfold expected_value. rewrite run_get_self. cbn [fst].
  rewrite Hc, HdZ', HcZ', Hxc, run_lift_Ok, Hnone.
  by rewrite !bool_decide_eq_false_2 by (by intros []).
Qed.

(** The constructor accepts an admissible variable that is also a cause or
    an effect; the estimator it returns is of no use: with discrete
    confounders and at least one point to sum over, [pdf] raises at the first
    point, when it joins the query and the point, and has evaluated
    nothing. *)
Theorem overlapping_roles_fail_at_query X (c e a : list string) vt (exp d : bool)
    self (log : list (call num)) x xq (ranges : list (list Z)) (v : string) :
  __init__ X c e a vt exp d = Ok self →
  (∀ v, v ∈ a → ∃ t, variable_types self !! v = Some t ∧ t ∈ ["o"; "u"]) →
  v ∈ a → v ∈ c ++ e →
  getitems x (c ++ e) = Ok xq →
  mapM (support_range self) (discrete_Z self) = Some ranges →
  product ranges ≠ [] →
  pdf x (self, log)
  = (Raise (ValueError "columns overlap but no suffix specified"), (self, log)).
Proof.
  intros Hinit Hdiscrete Hv Hrole Hxq Hranges Hpoints.
  destruct (constructed _ _ _ _ _ _ _ _ Hinit)
    as (_ & Hc & He & Ha & Hcdv & HdZ & HcZ & _).
  assert (a ⊆ discrete_Z self) as Hsub.
  { intros k Hk. apply HdZ. split; [done | by apply Hdiscrete]. }
  assert (discrete_Z self ≠ []) as HdZ' by (by eapply elem_of_not_nil, Hsub).
  assert (continuous_Z self = []) as HcZ'.
  { apply elem_of_nil_inv. intros k [Hk Htag]%HcZ.
    destruct (Hdiscrete k Hk) as (t & Ht & Hou).
    rewrite Htag in Ht. injection Ht as <-.
    assert ("c" ∉ ["o"; "u"]) as Hno by compute_done. done. }
  unfold pdf. rewrite run_get_self. cbn [fst].
  rewrite Hc, He, Ha, HcZ', Hxq, run_lift_Ok.
  rewrite bool_decide_eq_true_2 by done.
  rewrite (discrete_ranges_Ok _ _ Hranges), run_lift_Ok.
  destruct (product ranges) as [|z_vals points] eqn:Hproduct; [done|].
  assert (length (discrete_Z self) = length z_vals) as Hlen.
  { rewrite (product_length ranges) by (rewrite Hproduct; left).
    apply mapM_Some in Hranges. by apply Forall2_length in Hranges. }
  cbn [for_loop]. rewrite run_bind.
  rewrite bool_decide_eq_false_2 by (by intros []).
  rewrite (getitems_point a _ _ Hsub HdZ' Hlen), run_lift_Ok.
  unfold join. rewrite bool_decide_eq_true_2; [done|].
  apply Exists_exists. exists v. split.
  - by rewrite columns_confounders_frame.
  - by rewrite (columns_getitems _ _ _ Hxq).
Qed.
End Further.

(** ** The other branches of the queries *)

Section Branches.
Context {num : Type} `{!Number num} `{!Collaborators num} `{!IterationOrder}.
Implicit Types (X x : DataFrame num) (self : CausalEffect num) (w : world num).

(** The term of the adjusted expectation at one point, and its two
    evaluations. *)
Definition expectation_term self (reg : KernelReg num) (model : KDEMultivariate num)
    (xc : DataFrame num) (z_vals : list Z) : num :=
  let z := confounders_frame (admissable_set self) (discrete_Z self) z_vals in
  mul (reg_fit reg (AValues (values (hcat xc z)))).1
      (kde_pdf model (AValues (values z))).

Definition expectation_calls self (reg : KernelReg num) (model : KDEMultivariate num)
    (xc : DataFrame num) (z_vals : list Z) : list (call num) :=
  let z := confounders_frame (admissable_set self) (discrete_Z self) z_vals in
  [CallRegFit reg (AValues (values (hcat xc z)));
   CallKdePdf model (AValues (values z))].

(** What construction has made of an admissible set of discrete
    variables. *)
Lemma discrete_confounders_only X (c e a : list string) vt (exp d : bool) self :
  __init__ X c e a vt exp d = Ok self →
  a ≠ [] →
  (∀ v, v ∈ a → ∃ t, variable_types self !! v = Some t ∧ t ∈ ["o"; "u"]) →
  a ⊆ discrete_Z self ∧ discrete_Z self ≠ [] ∧ continuous_Z self = [].
Proof.
  intros (_ & _ & _ & _ & _ & HdZ & HcZ & _)%constructed Hne Hdiscrete.
  assert (a ⊆ discrete_Z self) as Hsub.
  { intros v Hv. apply HdZ. split; [done | by apply Hdiscrete]. }
  split_and!; [done| |].
  - destruct a as [|v a']; [done|]. apply (elem_of_not_nil v), Hsub. left.
  - apply elem_of_nil_inv. intros k [Hk Htag]%HcZ.
    destruct (Hdiscrete k Hk) as (t & Ht & Hou).
    rewrite Htag in Ht. injection Ht as <-.
    assert ("c" ∉ ["o"; "u"]) as Hno by compute_done. done.
Qed.

(** The run of [expected_value] over discrete confounders, on a query of
    one row labelled 0. *)
Lemma expected_value_discrete_run X (c e a : list string) vt (d : bool) self
    (log : list (call num)) x xc (ranges : list (list Z)) :
  __init__ X c e a vt true d = Ok self →
  a ≠ [] →
  (∀ v, v ∈ a → ∃ t, variable_types self !! v = Some t ∧ t ∈ ["o"; "u"]) →
  (∀ v, v ∈ a → v ∉ c) →
  default_row x →
  getitems x c = Ok xc →
  mapM (support_range self) (discrete_Z self) = Some ranges →
  ∃ reg model,
    conditional_expectation self = Some reg
    ∧ density self = Some model
    ∧ expected_value x (self, log)
      = (Ok (foldl (λ acc z_vals, add acc (expectation_term self reg model xc z_vals))
                   zero (product ranges)),
         (self, log ++ mjoin (expectation_calls self reg model xc <$> product ranges))).
Proof.
  intros Hinit Hne Hdiscrete Hdisjoint Hrow Hxc Hranges.
  destruct (discrete_confounders_only _ _ _ _ _ _ _ _ Hinit Hne Hdiscrete)
    as (Hsub & HdZ' & HcZ').
  destruct (constructed _ _ _ _ _ _ _ _ Hinit)
    as (_ & Hc & He & Ha & Hcdv & _ & _ & _ & _ & Hdens & Hexp & _).
  destruct (Hdens Hne) as [model Hmodel].
  destruct (Hexp eq_refl) as [reg Hreg].
  exists reg, model. split; [done|]. split; [done|].
  assert (columns xc = c) as Hcolumns by (by eapply columns_getitems).
  assert (default_row xc) as Hrow' by (by eapply default_row_getitems).
  unfold expected_value. rewrite run_get_self. cbn [fst].
  rewrite Hc, Ha, Hcdv, HcZ', Hxc, run_lift_Ok.
  rewrite bool_decide_eq_true_2 by done.
  rewrite (discrete_ranges_Ok _ _ Hranges), run_lift_Ok.
  rewrite (for_loop_run _
             (λ acc z_vals, add acc (expectation_term self reg model xc z_vals))
             (expectation_calls self reg model xc)); [done|].
  intros acc z_vals w' Hz.
  rewrite bool_decide_eq_false_2 by (by intros []).
  assert (length (discrete_Z self) = length z_vals) as Hlen.
  { rewrite (product_length _ _ Hz). apply mapM_Some in Hranges.
    by apply Forall2_length in Hranges. }
  rewrite (getitems_point a _ _ Hsub HdZ' Hlen), run_lift_Ok.
  destruct (exog_at_point c a (discrete_Z self) xc xc z_vals Hrow')
    as (joined & -> & Hexog).
  { by rewrite (getitems_getitems x c xc c). }
  { by rewrite Hcolumns. }
  rewrite run_lift_Ok, Hexog, run_lift_Ok.
  rewrite Hreg, Hmodel.
  unfold call_reg_fit, call_kde_pdf, logged, expectation_term, expectation_calls.
  rewrite Ha. repeat (rewrite run_bind; cbn). by rewrite <-app_assoc.
Qed.

(** With discrete confounders only and a query of one row labelled 0,
    [expected_value] returns the sum, over the points of the product of
    their inclusive integer ranges, of the regression at the query's causes
    and the point, times the marginal density at the point; an admissible
    variable may be an effect here, since the query is cut down to the
    causes. *)
Theorem expected_value_discrete_confounders X (c e a : list string) vt (d : bool)
    self (log : list (call num)) x xc (ranges : list (list Z)) :
  __init__ X c e a vt true d = Ok self →
  a ≠ [] →
  (∀ v, v ∈ a → ∃ t, variable_types self !! v = Some t ∧ t ∈ ["o"; "u"]) →
  (∀ v, v ∈ a → v ∉ c) →
  default_row x →
  getitems x c = Ok xc →
  mapM (support_range self) (discrete_Z self) = Some ranges →
  ∃ reg model,
    conditional_expectation self = Some reg
    ∧ density self = Some model
    ∧ (expected_value x (self, log)).1
      = Ok (foldl (λ acc z_vals, add acc (expectation_term self reg model xc z_vals))
                  zero (product ranges))
    ∧ (expected_value x (self, log)).2.1 = self.
Proof.
  intros Hinit Hne Hdiscrete Hdisjoint Hrow Hxc Hranges.
  destruct (expected_value_discrete_run _ _ _ _ _ _ _ log _ _ _
              Hinit Hne Hdiscrete Hdisjoint Hrow Hxc Hranges)
    as (reg & model & Hreg & Hmodel & ->).
  by exists reg, model.
Qed.




(** The quadrature box: the support intervals of the continuous confounders,
    which construction has recorded for each of them. *)
Lemma continuous_ranges_Ok X (c e a : list string) vt (exp d : bool) self :
  __init__ X c e a vt exp d = Ok self →
  ∃ box, continuous_ranges self = Ok box
         ∧ Forall2 (λ v r, support self !! v = Some r) (continuous_Z self) box.
Proof.
  intros (_ & _ & _ & _ & _ & _ & HcZ & _ & _ & _ & _ & _ & Hsup)%constructed.
  unfold continuous_ranges.
  destruct (for_each (dict_get (support self)) (continuous_Z self))
    as [box|err] eqn:Hbox.
  - exists box. split; [done|]. apply for_each_Forall2 in Hbox.
    eapply Forall2_impl; [exact Hbox|]. intros v r. unfold dict_get.
    by destruct (support self !! v) as [s|]; intros [= <-].
  - apply for_each_Raise_inv in Hbox as (v & [Hv _]%HcZ & Hraise).
    destruct (Hsup v) as [s Hs].
    { apply elem_of_app. right. apply elem_of_app. by right. }
    unfold dict_get in Hraise. by rewrite Hs in Hraise.
Qed.

Lemma no_discrete_confounder X (c e a : list string) vt (exp d : bool) self :
  __init__ X c e a vt exp d = Ok self →
  a ≠ [] →
  (∀ v, v ∈ a → variable_types self !! v = Some "c") →
  discrete_Z self = [] ∧ continuous_Z self ≠ [].
Proof.
  intros (_ & _ & _ & _ & _ & HdZ & HcZ & _)%constructed Hne Hcontinuous.
  assert ("c" ∉ ["o"; "u"]) as Hno by compute_done. split.
  - apply elem_of_nil_inv. intros k (Hk & t & Ht & Hou)%HdZ.
    rewrite (Hcontinuous k Hk) in Ht. by injection Ht as <-.
  - destruct a as [|v a']; [done|]. apply (elem_of_not_nil v), HcZ.
    split; [left | apply Hcontinuous; left].
Qed.

(** With continuous confounders only, [pdf] is one call of [nquad]: the
    integrand is [integration_function], the box is made of the support
    intervals of the continuous confounders, and the extra arguments are the
    first row of the query's causes and effects.  What [nquad] answers,
    value or exception, is what [pdf] answers. *)
Theorem pdf_continuous_confounders X (c e a : list string) vt (exp d : bool) self
    (log : list (call num)) x xc xe (args : list num) :
  __init__ X c e a vt exp d = Ok self →
  a ≠ [] →
  (∀ v, v ∈ a → variable_types self !! v = Some "c") →
  getitems x c = Ok xc →
  getitems x e = Ok xe →
  values0 (hcat xc xe) = Ok args →
  ∃ box,
    Forall2 (λ v r, support self !! v = Some r) (continuous_Z self) box
    ∧ pdf x (self, log)
      = ((r ← nquad (λ point, integration_function self (point ++ args)) box;
          Ok r.1),
         (self, log ++ [CallNquad IntegrationFunction box args])).
Proof.
  intros Hinit Hne Hcontinuous Hxc Hxe Hargs.
  destruct (no_discrete_confounder _ _ _ _ _ _ _ _ Hinit Hne Hcontinuous)
    as [HdZ HcZ].
  destruct (continuous_ranges_Ok _ _ _ _ _ _ _ _ Hinit) as (box & Hbox & Hsupport).
  destruct (constructed _ _ _ _ _ _ _ _ Hinit) as (_ & Hc & He & _).
  exists box. split; [done|].
  unfold pdf. rewrite run_get_self. cbn [fst].
  rewrite Hc, He, HdZ, (getitems_app _ _ _ _ _ Hxc Hxe), run_lift_Ok.
  rewrite bool_decide_eq_false_2 by (by intros []).
  rewrite bool_decide_eq_true_2 by done.
  by rewrite Hbox, run_lift_Ok, Hargs, run_lift_Ok.
Qed.

(** The same for [expected_value], with [expectation_integration_function]
    and the first row of the query's causes. *)
Theorem expected_value_continuous_confounders X (c e a : list string) vt
    (exp d : bool) self (log : list (call num)) x xc (args : list num) :
  __init__ X c e a vt exp d = Ok self →
  a ≠ [] →
  (∀ v, v ∈ a → variable_types self !! v = Some "c") →
  getitems x c = Ok xc →
  values0 xc = Ok args →
  ∃ box,
    Forall2 (λ v r, support self !! v = Some r) (continuous_Z self) box
    ∧ expected_value x (self, log)
      = ((r ← nquad (λ point, expectation_integration_function self (point ++ args))
                    box;
          Ok r.1),
         (self, log ++ [CallNquad ExpectationIntegrationFunction box args])).
Proof.
  intros Hinit Hne Hcontinuous Hxc Hargs.
  destruct (no_discrete_confounder _ _ _ _ _ _ _ _ Hinit Hne Hcontinuous)
    as [HdZ HcZ].
  destruct (continuous_ranges_Ok _ _ _ _ _ _ _ _ Hinit) as (box & Hbox & Hsupport).
  destruct (constructed _ _ _ _ _ _ _ _ Hinit) as (_ & Hc & _).
  exists box. split; [done|].
  unfold expected_value. rewrite run_get_self. cbn [fst].
  rewrite Hc, HdZ, Hxc, run_lift_Ok.
  rewrite bool_decide_eq_false_2 by (by intros []).
  rewrite bool_decide_eq_true_2 by done.
  by rewrite Hbox, run_lift_Ok, Hargs, run_lift_Ok.
Qed.

(** What a loop returns, when what its body returns does not depend on the
    world. *)
Lemma for_loop_result {A B} (body : B → A → method num B) (f : B → A → res B)
    (l : list A) (b : B) w :
  (∀ b a w, a ∈ l → (body b a w).1 = f b a) →
  (for_loop body b l w).1 = for_fold f b l.
Proof.
  revert b w. induction l as [|a l IH]; intros b w Hbody; [done|].
  cbn [for_loop for_fold]. rewrite run_bind.
  rewrite <-(Hbody b a w) by left.
  destruct (body b a w) as [[b'|err] w1]; [|done].
  cbn. apply IH. intros. apply Hbody. by right.
Qed.

(** A frame built from a dict of one-element lists, when the dict is not
    empty, is one row labelled 0. *)
Lemma default_row_one_row_frame (ks : list string) (vs : list num) :
  ks ≠ [] → length ks = length vs → default_row (one_row_frame ks vs).
Proof.
  intros Hne Hlen. split.
  - unfold one_row_frame. cbn [index].
    pose proof (zip_nil_inv ks vs Hne Hlen). by destruct (zip ks vs).
  - unfold one_row_frame. cbn [series]. apply Forall_forall. intros [k col] Hin.
    rewrite dict_columns_perm in Hin. apply elem_of_map_to_list in Hin.
    apply dict_of_pairs_lookup_Some, elem_of_zip_r in Hin.
    by apply list_elem_of_fmap in Hin as (v & -> & _).
Qed.

(** The arguments of the integrand at one point: the first row of the
    point's frame joined with the query, when the query is one row labelled
    0 and shares no column with the point. *)
Lemma args_at_point (names : list string) (z_vals : list Z) (xq : DataFrame num) :
  names ≠ [] → length names = length z_vals →
  default_row xq →
  (∀ k, k ∈ columns xq → k ∉ names) →
  join (one_row_frame names (of_int <$> z_vals)) xq
  = Ok (hcat (one_row_frame names (of_int <$> z_vals)) xq).
Proof.
  intros Hne Hlen Hrow Hdisjoint. apply join_disjoint; [|done|].
  - apply default_row_one_row_frame; [done | by rewrite length_fmap].
  - intros k Hk. unfold columns, one_row_frame. cbn [series].
    intros (kc & -> & Hin)%list_elem_of_fmap. destruct kc as [k' col].
    rewrite dict_columns_perm in Hin. apply elem_of_map_to_list in Hin.
    apply dict_of_pairs_lookup_Some, elem_of_zip_l in Hin.
    by apply (Hdisjoint k').
Qed.

(** With discrete and continuous confounders and a query of one row
    labelled 0, [pdf] adds up one quadrature per point of the product of the
    discrete ranges: the integrand is [integration_function], the box is
    that of the continuous confounders, the extra arguments are the first
    row of the point's frame joined with the query's causes and effects.  An
    exception of [nquad] at a point ends the sum. *)
Theorem pdf_mixed_confounders X (c e a : list string) vt (exp d : bool) self
    (log : list (call num)) x xc xe (ranges : list (list Z)) :
  __init__ X c e a vt exp d = Ok self →
  discrete_Z self ≠ [] →
  continuous_Z self ≠ [] →
  (∀ v, v ∈ a → v ∉ c ++ e) →
  default_row x →
  getitems x c = Ok xc →
  getitems x e = Ok xe →
  mapM (support_range self) (discrete_Z self) = Some ranges →
  ∃ box,
    Forall2 (λ v r, support self !! v = Some r) (continuous_Z self) box
    ∧ (pdf x (self, log)).1
      = for_fold
          (λ acc z_vals,
             args ← values0 (hcat (one_row_frame (discrete_Z self)
                                                 (of_int <$> z_vals))
                                  (hcat xc xe));
             r ← nquad (λ point, integration_function self (point ++ args)) box;
             Ok (add acc r.1))
          zero (product ranges)
    ∧ (pdf x (self, log)).2.1 = self.
Proof.
  intros Hinit HdZ HcZ Hdisjoint Hrow Hxc Hxe Hranges.
  destruct (continuous_ranges_Ok _ _ _ _ _ _ _ _ Hinit) as (box & Hbox & Hsupport).
  destruct (constructed _ _ _ _ _ _ _ _ Hinit)
    as (_ & Hc & He & Ha & _ & HdZ_spec & _).
  exists box. split; [done|]. split; [|apply pdf_read_only].
  pose proof (getitems_app _ _ _ _ _ Hxc Hxe) as Hxq.
  assert (default_row (hcat xc xe)) as Hrow' by (by eapply default_row_getitems).
  unfold pdf. rewrite run_get_self. cbn [fst].
  rewrite Hc, He, Hxq, run_lift_Ok.
  rewrite bool_decide_eq_true_2 by done.
  rewrite (discrete_ranges_Ok _ _ Hranges), run_lift_Ok.
  apply for_loop_result. intros acc z_vals w' Hz.
  rewrite bool_decide_eq_true_2 by done.
  rewrite Hbox, run_lift_Ok.
  assert (length (discrete_Z self) = length z_vals) as Hlen.
  { rewrite (product_length _ _ Hz). apply mapM_Some in Hranges.
    by apply Forall2_length in Hranges. }
  rewrite args_at_point, run_lift_Ok; [|done..|].
  - destruct (values0 _) as [args|err]; [|done].
    rewrite run_lift_Ok. unfold call_nquad, logged. rewrite run_bind. cbn.
    by destruct (nquad _ box) as [r|err].
  - intros k Hk Hin. rewrite (columns_getitems _ _ _ Hxq) in Hk.
    apply HdZ_spec in Hin as [Hin _]. by apply (Hdisjoint _ Hin).
Qed.

(** ** The integrand and mutual information *)

(** The rows of a frame of one row with one value per label. *)
Lemma values_one_row (g : string → num) (ks : list string) :
  values (Frame [IntLabel 0] ((λ v, (v, [g v])) <$> ks)) = [g <$> ks].
Proof.
  unfold values. cbn [index length seq omap list_omap].
  assert (row (Frame [IntLabel 0] ((λ v, (v, [g v])) <$> ks)) 0 = Some (g <$> ks))
    as ->; [|done].
  unfold row. cbn [series]. apply mapM_Some, Forall2_fmap, Forall_Forall2_diag.
  by apply Forall_forall.
Qed.

Lemma values0_one_row (g : string → num) (ks : list string) :
  values0 (Frame [IntLabel 0] ((λ v, (v, [g v])) <$> ks)) = Ok (g <$> ks).
Proof. unfold values0. by rewrite values_one_row. Qed.

(** Selecting labels from a frame built from a dict of single values. *)
Lemma getitems_one_row (names ks : list string) (args : list num) (g : string → num)
    (bound : string) :
  is_Some (dict_of_pairs (zip names args) !! bound) →
  (∀ k, k ∈ ks → dict_of_pairs (zip names args) !! k = Some (g k)) →
  getitems (one_row_frame names args) ks
  = Ok (Frame [IntLabel 0] ((λ v, (v, [g v])) <$> ks)).
Proof.
  intros [v Hbound] Hks. unfold getitems, one_row_frame. cbn [index].
  destruct (zip names args) as [|pair pairs] eqn:Hzip; [done|].
  rewrite <-Hzip in Hks. clear pair pairs Hzip Hbound.
  erewrite for_each_total; [done|]. apply Forall_forall. intros k Hk.
  unfold getitem. rewrite find_column_dict_columns.
  by rewrite zip_fmap_right, dict_of_pairs_fmap, lookup_fmap, (Hks k Hk).
Qed.

(** [integration_function] binds its positional arguments to the names
    [continuous_Z + discrete_Z + causes + effects], a later argument
    overriding an earlier one of the same name, and multiplies the
    conditional density at the row of the conditioning variables and the row
    of the effects by the marginal density at the frame of the admissible
    variables, a frame of one row labelled 0. *)
Theorem integration_function_binds_by_name self (model : KDEMultivariate num)
    (args : list num) (value : string → num) :
  density self = Some model →
  (∀ v, v ∈ conditional_density_vars self ++ effects self ++ admissable_set self →
        dict_of_pairs (zip (continuous_Z self ++ discrete_Z self
                            ++ causes self ++ effects self) args) !! v
        = Some (value v)) →
  conditional_density_vars self ≠ [] →
  effects self ≠ [] →
  integration_function self args
  = Ok (mul (ckde_pdf (conditional_density self)
                      (ARow (value <$> conditional_density_vars self))
                      (ARow (value <$> effects self)))
            (kde_pdf model
                     (AFrame (Frame [IntLabel 0]
                                    ((λ v, (v, [value v])) <$> admissable_set self))))).
Proof.
  intros Hmodel Hbound Hcdv Heffects. unfold integration_function.
  destruct (effects self) as [|bound effects'] eqn:Heff; [done|].
  assert (is_Some (dict_of_pairs
                     (zip (continuous_Z self ++ discrete_Z self
                           ++ causes self ++ bound :: effects') args) !! bound))
    as Hsome.
  { rewrite (Hbound bound); [done|]. apply elem_of_app. right.
    apply elem_of_app. left. left. }
  rewrite (getitems_one_row _ (conditional_density_vars self) _ value bound Hsome)
    by (intros k Hk; apply Hbound, elem_of_app; by left).
  cbn [mbind res_bind]. rewrite (values0_one_row value).
  rewrite (getitems_one_row _ (bound :: effects') _ value bound Hsome)
    by (intros k Hk; apply Hbound, elem_of_app; right; apply elem_of_app; by left).
  cbn [mbind res_bind]. rewrite (values0_one_row value).
  rewrite Hmodel. cbn [attr mbind res_bind].
  by rewrite (getitems_one_row _ (admissable_set self) _ value bound Hsome)
    by (intros k Hk; apply Hbound, elem_of_app; right; apply elem_of_app; by right).
Qed.

(** What [biased_mutual_information] returns is the difference of two
    quadratures of the entropy integrand, the first over the support of
    [x2], the second over the supports of [x1] and [x2]; these are the two
    collaborator calls it makes. *)
Theorem mutual_information_is_a_difference X (v1 v2 : string) w (value : num) w' :
  biased_mutual_information X v1 v2 w = (Ok value, w') →
  ∃ s1 s2 Hx2 err Hx2givenx1 err',
    support w.1 !! v1 = Some s1
    ∧ support w.1 !! v2 = Some s2
    ∧ nquad (λ point, entropy_integration_function w'.1 (point ++ [])) [s2]
      = Ok (Hx2, err)
    ∧ nquad (λ point, entropy_integration_function w'.1 (point ++ [])) [s1; s2]
      = Ok (Hx2givenx1, err')
    ∧ value = sub Hx2 Hx2givenx1
    ∧ w'.2 = w.2 ++ [CallNquad EntropyIntegrationFunction [s2] [];
                     CallNquad EntropyIntegrationFunction [s1; s2] []].
Proof.
  intros Hrun.
  apply mutual_information_Ok in Hrun
    as (tag1 & tag2 & col1 & col2 & s1 & s2 & h & err & h' & err' & Hrun).
  cbv zeta in Hrun.
  destruct Hrun as (_ & _ & _ & _ & Hs1 & Hs2 & Hq & Hq' & -> & ->).
  by exists s1, s2, h, err, h', err'.
Qed.

(** [biased_mutual_information] returns only for two variables that are
    among effects, causes and the admissible set of the estimator, and are
    columns of the sample it is given. *)
Theorem mutual_information_needs_modelled_variables X (c e a : list string) vt
    (exp d : bool) self X' (v1 v2 : string) (log : list (call num))
    (value : num) w' :
  __init__ X c e a vt exp d = Ok self →
  biased_mutual_information X' v1 v2 (self, log) = (Ok value, w') →
  v1 ∈ e ++ c ++ a ∧ v2 ∈ e ++ c ++ a ∧ v1 ∈ columns X' ∧ v2 ∈ columns X'.
Proof.
  intros Hinit Hrun.
  apply mutual_information_Ok in Hrun
    as (tag1 & tag2 & col1 & col2 & s1 & s2 & h & err & h' & err' & Hrun).
  cbv zeta in Hrun.
  destruct Hrun as (_ & _ & Hcol1 & Hcol2 & Hs1 & Hs2 & _).
  cbn [fst] in Hs1, Hs2.
  split_and!.
  - eapply support_key_modelled; [exact Hinit | by rewrite Hs1].
  - eapply support_key_modelled; [exact Hinit | by rewrite Hs2].
  - apply find_column_Some_elem in Hcol1. apply list_elem_of_fmap. by exists (v1, col1).
  - apply find_column_Some_elem in Hcol2. apply list_elem_of_fmap. by exists (v2, col2).
Qed.
End Branches.


(** ** Further worked examples *)

Module MoreExactExamples.
Import Exact ExactExamples.
#[local] Existing Instance key_order.
#[local] Existing Instance Exact.collaborators.
#[local] Existing Instance exact_number.

(** Solves [v ∈ l → P v] for a list [l] of literals by trying each. *)
Ltac each_member H :=
  repeat (apply elem_of_cons in H as [->|H]; [try (vm_compute; reflexivity)|]);
  try (by apply elem_of_nil in H).

Lemma confounders_are_partitioned_witness :
  NoDup (discrete_Z mixed) ∧ NoDup (continuous_Z mixed)
  ∧ (∀ v, v ∈ discrete_Z mixed → v ∈ ["z"; "w"] ∧ v ∉ continuous_Z mixed)
  ∧ (∀ v, v ∈ continuous_Z mixed → v ∈ ["z"; "w"] ∧ v ∉ discrete_Z mixed)
  ∧ (∀ v tag, v ∈ ["z"; "w"] → variable_types mixed !! v = Some tag →
       tag ∈ ["c"; "o"; "u"] → v ∈ discrete_Z mixed ∨ v ∈ continuous_Z mixed).
Proof.
  exact (confounders_are_partitioned sample ["c"] ["d"] ["z"; "w"] (Some types)
           true true mixed mixed_constructed).
Defined.

Lemma support_cube_keys_witness :
  is_Some (support mixed !! "w") ∧ ¬ is_Some (support mixed !! "note").
Proof.
  split.
  - apply (support_cube_keys sample ["c"] ["d"] ["z"; "w"] (Some types)
             true true mixed "w" mixed_constructed). compute_done.
  - intros Hin%(support_cube_keys sample ["c"] ["d"] ["z"; "w"] (Some types)
                  true true mixed "note" mixed_constructed).
    assert ("note" ∉ ["d"] ++ ["c"] ++ ["z"; "w"]) as Hout by compute_done. done.
Defined.

Lemma queries_need_their_columns_witness :
  (∃ label,
     (label ∉ columns (new_frame [("c", [Rational 2])]))
     ∧ pdf (new_frame [("c", [Rational 2])]) (mixed, [])
       = (Raise (KeyError label), (mixed, [])))
  ∧ ∃ label,
      (label ∉ columns (new_frame [("d", [Rational 5])]))
      ∧ expected_value (new_frame [("d", [Rational 5])]) (mixed, [])
        = (Raise (KeyError label), (mixed, [])).
Proof.
  split.
  - refine (proj1 (queries_need_their_columns mixed []
                     (new_frame [("c", [Rational 2])]) "d" _) _);
      compute_done.
  - refine (proj2 (queries_need_their_columns mixed []
                     (new_frame [("d", [Rational 5])]) "c" _) _);
      compute_done.
Defined.

(** The ordered variable [z] as a cause and as a confounder. *)
Definition overlapping : CausalEffect exact :=
  Eval vm_compute in
    returned (__init__ sample ["z"] ["d"] ["z"] (Some types) true true).

Lemma overlapping_constructed :
  __init__ sample ["z"] ["d"] ["z"] (Some types) true true = Ok overlapping.
Proof. vm_compute. reflexivity. Qed.

Lemma overlapping_roles_fail_at_query_witness :
  pdf (new_frame [("z", [Rational 1]); ("d", [Rational 5])]) (overlapping, [])
  = (Raise (ValueError "columns overlap but no suffix specified"),
     (overlapping, [])).
Proof.
  eapply (overlapping_roles_fail_at_query sample ["z"] ["d"] ["z"] (Some types)
            true true overlapping [] _ _ _ "z" overlapping_constructed).
  - intros v ->%list_elem_of_singleton. exists "o".
    split; [vm_compute; reflexivity | left].
  - left.
  - left.
  - reflexivity.
  - vm_compute. reflexivity.
  - vm_compute. discriminate.
Defined.

Lemma expected_value_discrete_confounders_witness :
  (expected_value query (discrete, [])).1 = Ok (Rational (7 # 2))
  ∧ (expected_value query (discrete, [])).2.1 = discrete.
Proof.
  edestruct (expected_value_discrete_confounders sample ["c"] ["d"] ["z"]
               (Some types) true discrete [] query (new_frame [("c", [Rational 2])]))
    as (reg & model & Hreg & Hmodel & Hvalue & Hself).
  - exact discrete_constructed.
  - done.
  - intros v ->%list_elem_of_singleton. exists "o".
    split; [vm_compute; reflexivity | left].
  - intros v ->%list_elem_of_singleton. compute_done.
  - exact query_default_row.
  - reflexivity.
  - vm_compute. reflexivity.
  - split; [|exact Hself]. rewrite Hvalue.
    vm_compute in Hreg, Hmodel. injection Hreg as <-. injection Hmodel as <-.
    vm_compute. reflexivity.
Defined.


(** The estimator with the continuous confounder only. *)
Definition continuous : CausalEffect exact :=
  Eval vm_compute in
    returned (__init__ sample ["c"] ["d"] ["w"] (Some types) true true).

Lemma continuous_constructed :
  __init__ sample ["c"] ["d"] ["w"] (Some types) true true = Ok continuous.
Proof. vm_compute. reflexivity. Qed.

Lemma pdf_continuous_confounders_witness :
  ∃ box,
    Forall2 (λ v r, support continuous !! v = Some r) (continuous_Z continuous) box
    ∧ pdf query (continuous, [])
      = ((r ← nquad (λ point, integration_function continuous
                                (point ++ [Rational 2; Rational 5]))
                    box;
          Ok r.1),
         (continuous, [CallNquad IntegrationFunction box [Rational 2; Rational 5]])).
Proof.
  apply (pdf_continuous_confounders sample ["c"] ["d"] ["w"] (Some types) true true
           continuous [] query (new_frame [("c", [Rational 2])])
           (new_frame [("d", [Rational 5])]) [Rational 2; Rational 5]
           continuous_constructed); try done.
  intros v ->%list_elem_of_singleton. vm_compute. reflexivity.
Defined.

Lemma expected_value_continuous_confounders_witness :
  ∃ box,
    Forall2 (λ v r, support continuous !! v = Some r) (continuous_Z continuous) box
    ∧ expected_value query (continuous, [])
      = ((r ← nquad (λ point,
                       expectation_integration_function continuous
                         (point ++ [Rational 2]))
                    box;
          Ok r.1),
         (continuous, [CallNquad ExpectationIntegrationFunction box [Rational 2]])).
Proof.
  apply (expected_value_continuous_confounders sample ["c"] ["d"] ["w"]
           (Some types) true true continuous [] query
           (new_frame [("c", [Rational 2])]) [Rational 2]
           continuous_constructed); try done.
  intros v ->%list_elem_of_singleton. vm_compute. reflexivity.
Defined.

Lemma pdf_mixed_confounders_witness :
  (pdf query (mixed, [])).1 = Ok (Rational (148383488 # 614876385))
  ∧ (pdf query (mixed, [])).2.1 = mixed.
Proof.
  edestruct (pdf_mixed_confounders sample ["c"] ["d"] ["z"; "w"] (Some types)
               true true mixed [] query (new_frame [("c", [Rational 2])])
               (new_frame [("d", [Rational 5])]))
    as (box & Hbox & Hvalue & Hself).
  - exact mixed_constructed.
  - vm_compute. discriminate.
  - vm_compute. discriminate.
  - intros v Hv. each_member Hv; compute_done.
  - exact query_default_row.
  - reflexivity.
  - reflexivity.
  - vm_compute. reflexivity.
  - split; [|exact Hself]. vm_compute. reflexivity.
Defined.

Definition value_at (v : string) : exact :=
  if decide (v = "w") then Rational 1
  else if decide (v = "z") then Rational 0
  else if decide (v = "c") then Rational 2
  else Rational 5.

Lemma integration_function_binds_by_name_witness :
  ∃ model,
    density mixed = Some model
    ∧ integration_function mixed [Rational 1; Rational 0; Rational 2; Rational 5]
      = Ok (mul (ckde_pdf (conditional_density mixed)
                          (ARow [Rational 2; Rational 0; Rational 1])
                          (ARow [Rational 5]))
                (kde_pdf model
                   (AFrame (new_frame [("z", [Rational 0]); ("w", [Rational 1])])))).
Proof.
  eexists. split; [vm_compute; reflexivity|].
  erewrite (integration_function_binds_by_name mixed _ _ value_at).
  - reflexivity.
  - vm_compute. reflexivity.
  - intros v Hv. change (v ∈ ["c"; "z"; "w"; "d"; "z"; "w"]) in Hv.
    each_member Hv.
  - vm_compute. discriminate.
  - vm_compute. discriminate.
Defined.
End MoreExactExamples.

Module MoreBinary64Examples.
Import Binary64Examples.
#[local] Existing Instance key_order.
#[local] Existing Instance Binary64.number.
#[local] Existing Instance Binary64.collaborators.

Lemma expected_value_needs_the_regression_witness :
  expected_value (new_frame [("a", [1%float])]) (estimator, [])
  = (Raise (AttributeError "conditional_expectation"), (estimator, [])).
Proof.
  apply (expected_value_needs_the_regression sample ["a"] ["b"] (Some types) true
           estimator [] _ estimator_constructed).
  intros k ->%list_elem_of_singleton. compute_done.
Defined.

Lemma mutual_information_is_a_difference_witness :
  ∃ s1 s2 Hx2 err Hx2givenx1 err',
    support estimator !! "a" = Some s1
    ∧ support estimator !! "b" = Some s2
    ∧ nquad (λ point, entropy_integration_function informed (point ++ [])) [s2]
      = Ok (Hx2, err)
    ∧ nquad (λ point, entropy_integration_function informed (point ++ [])) [s1; s2]
      = Ok (Hx2givenx1, err')
    ∧ nan = sub Hx2 Hx2givenx1
    ∧ (biased_mutual_information sample "a" "b" (estimator, [])).2.2
      = [] ++ [CallNquad EntropyIntegrationFunction [s2] [];
               CallNquad EntropyIntegrationFunction [s1; s2] []].
Proof.
  apply (mutual_information_is_a_difference sample "a" "b" (estimator, []) nan
           (biased_mutual_information sample "a" "b" (estimator, [])).2).
  vm_compute. reflexivity.
Defined.

Lemma mutual_information_needs_modelled_variables_witness :
  "a" ∈ ["b"] ++ ["a"] ++ [] ∧ "b" ∈ ["b"] ++ ["a"] ++ []
  ∧ "a" ∈ columns sample ∧ "b" ∈ columns sample.
Proof.
  apply (mutual_information_needs_modelled_variables sample ["a"] ["b"] []
           (Some types) false true estimator sample "a" "b" [] nan
           (biased_mutual_information sample "a" "b" (estimator, [])).2
           estimator_constructed).
  vm_compute. reflexivity.
Defined.
End MoreBinary64Examples.

(** ** More of the integrands and the queries *)

Section Integrands.
Context {num : Type} `{!Number num} `{!Collaborators num} `{!IterationOrder}.
Implicit Types (X x : DataFrame num) (self : CausalEffect num) (w : world num).

(** The constructor fits the marginal density exactly when there is an
    admissible variable and the regression exactly when it is asked to; the
    flag [density] changes nothing, the conditional density is always
    fitted. *)
Theorem fits_at_construction X (c e a : list string) vt (exp d : bool) self :
  __init__ X c e a vt exp d = Ok self →
  (is_Some (density self) ↔ a ≠ [])
  ∧ (is_Some (conditional_expectation self) ↔ exp = true)
  ∧ ∀ d', __init__ X c e a vt exp d' = Ok self.
Proof.
  intros Hinit. split_and!; [| |by intros d'].
  - apply init_Ok in Hinit as (? & ? & ? & ? & ? & ? & ? & ? & Hbuilt).
    cbv zeta in Hbuilt.
    destruct Hbuilt as (_ & _ & _ & _ & _ & _ & _ & _ & _ & ->).
    cbn [density]. case_bool_decide as Ha.
    + split; [done | by eexists].
    + split; [by intros [] | done].
  - apply init_Ok in Hinit as (? & ? & ? & ? & ? & ? & ? & ? & Hbuilt).
    cbv zeta in Hbuilt.
    destruct Hbuilt as (_ & _ & _ & _ & _ & _ & _ & _ & _ & ->).
    cbn [conditional_expectation]. destruct exp.
    + split; [done | by eexists].
    + split; [by intros [] | done].
Qed.

(** The entropy integrand is of no use on a fresh estimator: the constructor
    assigns none of the attributes it reads, so it raises [AttributeError]
    on one argument and on two, and the arity error otherwise. *)
Theorem entropy_integrand_before_mutual_information X (c e a : list string) vt
    (exp d : bool) self :
  __init__ X c e a vt exp d = Ok self →
  (∀ v, entropy_integration_function self [v] = Raise (AttributeError "x2"))
  ∧ (∀ u v, entropy_integration_function self [u; v] = Raise (AttributeError "x1"))
  ∧ ∀ args, ∃ err, entropy_integration_function self args = Raise err.
Proof.
  intros Hinit.
  apply init_Ok in Hinit as (? & ? & ? & ? & ? & ? & ? & ? & Hbuilt).
  cbv zeta in Hbuilt.
  destruct Hbuilt as (_ & _ & _ & _ & _ & _ & _ & _ & _ & ->).
  split_and!; [done..|].
  intros [|u [|v [|t args]]]; by eexists.
Qed.

(** When the two variables of the entropy integrand are one and the same,
    the dict of its arguments has one key and keeps the second argument: the
    integrand at [(u, v)] does not depend on [u]. *)
Theorem entropy_integrand_same_variable self (name : string)
    (model : KDEMultivariateConditional num) (marginal : KDEMultivariate num)
    (u v : num) :
  x1 self = Some name → x2 self = Some name →
  cond_integration_density self = Some model →
  x1_integration_density self = Some marginal →
  entropy_integration_function self [u; v]
  = Ok (let p := ckde_pdf model (ASeries [v]) (ASeries [v]) in
        mul (mul (neg (kde_pdf marginal (ASeries [v]))) p) (log p)).
Proof.
  intros Hname1 Hname2 Hmodel Hmarginal. unfold entropy_integration_function.
  rewrite Hname1, Hname2, Hmodel, Hmarginal. cbn -[one_row_frame].
  unfold getitem, one_row_frame. rewrite !find_column_dict_columns.
  unfold dict_of_pairs. cbn. by rewrite lookup_insert_eq.
Qed.

(** [expectation_integration_function] binds its positional arguments to
    the names [continuous_Z + discrete_Z + causes] and multiplies the
    regression at the one-row matrix of the conditioning variables by the
    marginal density at the frame of the admissible variables, a frame of
    one row labelled 0. *)
Theorem expectation_integration_function_binds_by_name self
    (reg : KernelReg num) (model : KDEMultivariate num)
    (args : list num) (value : string → num) :
  conditional_expectation self = Some reg →
  density self = Some model →
  (∀ v, v ∈ conditional_density_vars self ++ admissable_set self →
        dict_of_pairs (zip (continuous_Z self ++ discrete_Z self ++ causes self)
                           args) !! v
        = Some (value v)) →
  conditional_density_vars self ≠ [] →
  expectation_integration_function self args
  = Ok (mul (reg_fit reg (AValues [value <$> conditional_density_vars self])).1
            (kde_pdf model
                     (AFrame (Frame [IntLabel 0]
                                    ((λ v, (v, [value v])) <$> admissable_set self))))).
Proof.
  intros Hreg Hmodel Hbound Hcdv. unfold expectation_integration_function.
  destruct (conditional_density_vars self) as [|bound cdv] eqn:Hvars; [done|].
  assert (is_Some (dict_of_pairs
                     (zip (continuous_Z self ++ discrete_Z self ++ causes self)
                          args) !! bound))
    as Hsome.
  { rewrite (Hbound bound); [done|]. apply elem_of_app. left. left. }
  rewrite Hreg. cbn [attr mbind res_bind].
  rewrite (getitems_one_row _ (bound :: cdv) _ value bound Hsome)
    by (intros k Hk; apply Hbound, elem_of_app; by left).
  cbn [mbind res_bind]. rewrite (values_one_row value).
  rewrite Hmodel. cbn [attr mbind res_bind].
  by rewrite (getitems_one_row _ (admissable_set self) _ value bound Hsome)
    by (intros k Hk; apply Hbound, elem_of_app; by right).
Qed.

(** With discrete and continuous confounders and a query of one row
    labelled 0, [expected_value] adds up one quadrature of
    [expectation_integration_function] per point of the product of the
    discrete ranges; the extra arguments are the first row of the point's
    frame joined with the query's causes. *)
Theorem expected_value_mixed_confounders X (c e a : list string) vt
    (exp d : bool) self (log : list (call num)) x xc (ranges : list (list Z)) :
  __init__ X c e a vt exp d = Ok self →
  discrete_Z self ≠ [] →
  continuous_Z self ≠ [] →
  (∀ v, v ∈ a → v ∉ c) →
  default_row x →
  getitems x c = Ok xc →
  mapM (support_range self) (discrete_Z self) = Some ranges →
  ∃ box,
    Forall2 (λ v r, support self !! v = Some r) (continuous_Z self) box
    ∧ (expected_value x (self, log)).1
      = for_fold
          (λ acc z_vals,
             args ← values0 (hcat (one_row_frame (discrete_Z self)
                                                 (of_int <$> z_vals))
                                  xc);
             r ← nquad (λ point,
                          expectation_integration_function self (point ++ args))
                       box;
             Ok (add acc r.1))
          zero (product ranges)
    ∧ (expected_value x (self, log)).2.1 = self.
Proof.
  intros Hinit HdZ HcZ Hdisjoint Hrow Hxc Hranges.
  destruct (continuous_ranges_Ok _ _ _ _ _ _ _ _ Hinit) as (box & Hbox & Hsupport).
  destruct (constructed _ _ _ _ _ _ _ _ Hinit)
    as (_ & Hc & He & Ha & _ & HdZ_spec & _).
  exists box. split; [done|]. split; [|apply expected_value_read_only].
  assert (default_row xc) as Hrow' by (by eapply default_row_getitems).
  unfold expected_value. rewrite run_get_self. cbn [fst].
  rewrite Hc, Hxc, run_lift_Ok.
  rewrite bool_decide_eq_true_2 by done.
  rewrite (discrete_ranges_Ok _ _ Hranges), run_lift_Ok.
  apply for_loop_result. intros acc z_vals w' Hz.
  rewrite bool_decide_eq_true_2 by done.
  rewrite Hbox, run_lift_Ok.
  assert (length (discrete_Z self) = length z_vals) as Hlen.
  { rewrite (product_length _ _ Hz). apply mapM_Some in Hranges.
    by apply Forall2_length in Hranges. }
  rewrite args_at_point, run_lift_Ok; [|done..|].
  - destruct (values0 _) as [args|err]; [|done].
    rewrite run_lift_Ok. unfold call_nquad, logged. rewrite run_bind. cbn.
    by destruct (nquad _ box) as [r|err].
  - intros k Hk Hin. rewrite (columns_getitems _ _ _ Hxc) in Hk.
    apply HdZ_spec in Hin as [Hin _]. by apply (Hdisjoint _ Hin).
Qed.
End Integrands.

(** ** Queries after a mutual information *)

Section Composition.
Context {num : Type} `{!Number num} `{!Collaborators num} `{!IterationOrder}.
Implicit Types (X x : DataFrame num) (self : CausalEffect num) (w : world num).

(** A method that does not look at the object: what it returns and what it
    calls are the same on any two objects. *)
Definition oblivious {A} (m : method num A) : Prop :=
  ∀ self1 self2 log,
    (m (self1, log)).1 = (m (self2, log)).1
    ∧ (m (self1, log)).2.2 = (m (self2, log)).2.2.

Lemma oblivious_ret {A} (a : A) : oblivious (mret a).
Proof. done. Qed.

Lemma oblivious_lift {A} (r : res A) : oblivious (lift r).
Proof. done. Qed.

Lemma oblivious_logged {A} (c : call num) (r : res A) : oblivious (logged c r).
Proof. done. Qed.

Lemma oblivious_bind {A B} (m : method num A) (f : A → method num B) :
  oblivious m → (∀ a, oblivious (f a)) → oblivious (m ≫= f).
Proof.
  intros Hm Hf self1 self2 log. rewrite !run_bind.
  destruct (Hm self1 self2 log) as [Hr Hlog].
  destruct (m (self1, log)) as [r1 [s1 log1]], (m (self2, log)) as [r2 [s2 log2]].
  cbn in Hr, Hlog. subst r2 log2. destruct r1 as [a|err]; [apply Hf | done].
Qed.

Lemma oblivious_if {A} (b : bool) (m1 m2 : method num A) :
  oblivious m1 → oblivious m2 → oblivious (if b then m1 else m2).
Proof. by destruct b. Qed.

Lemma oblivious_for_loop {A B} (body : B → A → method num B) (b : B) (l : list A) :
  (∀ b a, oblivious (body b a)) → oblivious (for_loop body b l).
Proof.
  intros Hbody. revert b. induction l as [|a l IH]; intros b; simpl.
  - apply oblivious_ret.
  - apply oblivious_bind; [apply Hbody | apply IH].
Qed.

(** Two objects with the same attributes of construction have the same
    integrands. *)
Lemma integration_function_built self1 self2 :
  built_at_construction self1 = built_at_construction self2 →
  integration_function self1 = integration_function self2
  ∧ expectation_integration_function self1 = expectation_integration_function self2.
Proof.
  unfold built_at_construction. intros [= Hc He Ha Hcdv _ Hd Hcd Hce _ _ HdZ _ HcZ].
  unfold integration_function, expectation_integration_function.
  by rewrite Hc, He, Ha, Hcdv, Hd, Hcd, Hce, HdZ, HcZ.
Qed.

Ltac oblivious :=
  repeat first
    [ apply oblivious_for_loop; intros
    | apply oblivious_bind; [|intros]
    | apply oblivious_if
    | apply oblivious_ret
    | apply oblivious_lift | apply oblivious_logged ].

(** A query looks at the attributes of construction only. *)
Lemma queries_built x self1 self2 (log : list (call num)) :
  built_at_construction self1 = built_at_construction self2 →
  ((pdf x (self1, log)).1 = (pdf x (self2, log)).1
   ∧ (pdf x (self1, log)).2.2 = (pdf x (self2, log)).2.2)
  ∧ (expected_value x (self1, log)).1 = (expected_value x (self2, log)).1
  ∧ (expected_value x (self1, log)).2.2 = (expected_value x (self2, log)).2.2.
Proof.
  intros Hbuilt.
  destruct (integration_function_built _ _ Hbuilt) as [Hf Hg].
  revert Hbuilt. unfold built_at_construction.
  intros [= Hc He Ha Hcdv _ Hd Hcd Hce Hsup _ HdZ _ HcZ].
  split.
  - unfold pdf. rewrite !run_get_self. cbn [fst].
    unfold discrete_ranges, continuous_ranges, support_range.
    rewrite Hf, Hc, He, Ha, Hcdv, Hd, Hcd, Hsup, HdZ, HcZ.
    match goal with
    | |- (?m _).1 = _ ∧ _ => assert (oblivious m) as Hm
    end.
    { unfold call_nquad, call_ckde_pdf, call_kde_pdf. oblivious. }
    apply Hm.
  - unfold expected_value. rewrite !run_get_self. cbn [fst].
    unfold discrete_ranges, continuous_ranges, support_range.
    rewrite Hg, Hc, Ha, Hcdv, Hd, Hce, Hsup, HdZ, HcZ.
    match goal with
    | |- (?m _).1 = _ ∧ _ => assert (oblivious m) as Hm
    end.
    { unfold call_nquad, call_reg_fit, call_kde_pdf. oblivious. }
    apply Hm.
Qed.

(** A call of [biased_mutual_information], whether it returns or raises,
    changes no later answer of [pdf] or [expected_value], and none of the
    calls they make. *)
Theorem queries_after_mutual_information X (v1 v2 : string) w x
    (log : list (call num)) :
  let self' := (biased_mutual_information X v1 v2 w).2.1 in
  (pdf x (self', log)).1 = (pdf x (w.1, log)).1
  ∧ (pdf x (self', log)).2.2 = (pdf x (w.1, log)).2.2
  ∧ (expected_value x (self', log)).1 = (expected_value x (w.1, log)).1
  ∧ (expected_value x (self', log)).2.2 = (expected_value x (w.1, log)).2.2.
Proof.
  intros self'.
  destruct (queries_built x self' w.1 log) as [[? ?] [? ?]]; [|done].
  apply mutual_information_keeps_construction.
Qed.
End Composition.

(** ** Worked examples for the integrands *)

Module IntegrandExamples.
Import Exact ExactExamples MoreExactExamples.
#[local] Existing Instance key_order.
#[local] Existing Instance Exact.collaborators.
#[local] Existing Instance exact_number.

Lemma fits_at_construction_witness :
  (is_Some (density mixed) ↔ ["z"; "w"] ≠ [])
  ∧ (is_Some (conditional_expectation mixed) ↔ true = true)
  ∧ ∀ d', __init__ sample ["c"] ["d"] ["z"; "w"] (Some types) true d' = Ok mixed.
Proof.
  exact (fits_at_construction sample ["c"] ["d"] ["z"; "w"] (Some types)
           true true mixed mixed_constructed).
Defined.

Lemma entropy_integrand_before_mutual_information_witness :
  (∀ v, entropy_integration_function mixed [v] = Raise (AttributeError "x2"))
  ∧ (∀ u v, entropy_integration_function mixed [u; v]
            = Raise (AttributeError "x1"))
  ∧ ∀ args, ∃ err, entropy_integration_function mixed args = Raise err.
Proof.
  exact (entropy_integrand_before_mutual_information sample ["c"] ["d"]
           ["z"; "w"] (Some types) true true mixed mixed_constructed).
Defined.

Lemma expectation_integration_function_binds_by_name_witness :
  ∃ reg model,
    conditional_expectation mixed = Some reg
    ∧ density mixed = Some model
    ∧ expectation_integration_function mixed [Rational 1; Rational 0; Rational 2]
      = Ok (mul (reg_fit reg (AValues [[Rational 2; Rational 0; Rational 1]])).1
                (kde_pdf model
                   (AFrame (new_frame [("z", [Rational 0]); ("w", [Rational 1])])))).
Proof.
  eexists _, _. split; [vm_compute; reflexivity|].
  split; [vm_compute; reflexivity|].
  erewrite (expectation_integration_function_binds_by_name mixed _ _ _ value_at).
  - reflexivity.
  - vm_compute. reflexivity.
  - vm_compute. reflexivity.
  - intros v Hv. change (v ∈ ["c"; "z"; "w"; "z"; "w"]) in Hv.
    each_member Hv.
  - vm_compute. discriminate.
Defined.

Lemma expected_value_mixed_confounders_witness :
  ∃ box,
    Forall2 (λ v r, support mixed !! v = Some r) (continuous_Z mixed) box
    ∧ (expected_value query (mixed, [])).1
      = for_fold
          (λ acc z_vals,
             args ← values0 (hcat (one_row_frame (discrete_Z mixed)
                                                 (of_int <$> z_vals))
                                  (new_frame [("c", [Rational 2])]));
             r ← nquad (λ point,
                          expectation_integration_function mixed (point ++ args))
                       box;
             Ok (add acc r.1))
          zero (product [[0; 1]%Z])
    ∧ (expected_value query (mixed, [])).2.1 = mixed.
Proof.
  apply (expected_value_mixed_confounders sample ["c"] ["d"] ["z"; "w"]
           (Some types) true true mixed [] query (new_frame [("c", [Rational 2])])
           [[0; 1]%Z] mixed_constructed).
  - vm_compute. discriminate.
  - vm_compute. discriminate.
  - intros v Hv. each_member Hv; compute_done.
  - exact query_default_row.
  - reflexivity.
  - vm_compute. reflexivity.
Defined.
End IntegrandExamples.

Module EntropyExamples.
Import Binary64Examples.
#[local] Existing Instance key_order.
#[local] Existing Instance Binary64.number.
#[local] Existing Instance Binary64.collaborators.

(** The estimator after the mutual information of [a] and itself. *)
Definition doubled : CausalEffect float :=
  Eval vm_compute in (biased_mutual_information sample "a" "a" (estimator, [])).2.1.

Lemma entropy_integrand_same_variable_witness :
  ∃ model marginal,
    cond_integration_density doubled = Some model
    ∧ x1_integration_density doubled = Some marginal
    ∧ ∀ u v,
        entropy_integration_function doubled [u; v]
        = Ok (let p := ckde_pdf model (ASeries [v]) (ASeries [v]) in
              mul (mul (neg (kde_pdf marginal (ASeries [v]))) p) (log p)).
Proof.
  eexists _, _. split; [vm_compute; reflexivity|].
  split; [vm_compute; reflexivity|]. intros u v.
  apply (entropy_integrand_same_variable doubled "a"); vm_compute; reflexivity.
Defined.
End EntropyExamples.
